(** * WSPRbeacon.c: the beacon's transmission scheduler

    A shallow embedding of [WSPRbeaconCreatePacket], [WSPRbeaconSendPacket]
    and [WSPRbeaconTxScheduler] of WSPRbeacon/WSPRbeacon.c, and the
    properties of the scheduler: eligibility of the GPS reference, the slot
    computation, the one-shot latch and the order of the keying calls.

    C integers are [Z] with the wrap-around of their type written out.
    The functions run in a small monad over the machine state (the static
    latch, the allocated contexts, the microsecond timer) that also records
    the calls made to the collaborators and distinguishes a return from a
    failed [assert_] and from undefined behaviour. *)

From Stdlib Require Import ZArith Lia String.
From stdpp Require Import base list.

Local Open Scope Z_scope.

(** ** C integer arithmetic *)

Module CInt.

(** Conversion to an unsigned type of [bits] bits. *)
Definition wrap (bits x : Z) : Z := x mod 2 ^ bits.

Definition to_uint32 (x : Z) : Z := wrap 32 x.
Definition to_uint64 (x : Z) : Z := wrap 64 x.

(** A scalar used as a condition: true when it is not 0. *)
Definition truth (x : Z) : bool := negb (x =? 0).

(** The [int] value of a comparison. *)
Definition of_bool (b : bool) : Z := if b then 1 else 0.

(** [/] and [%] of C truncate towards zero. *)
Definition div (a b : Z) : Z := Z.quot a b.
Definition rem (a b : Z) : Z := Z.rem a b.

End CInt.

(** ** Constants of the headers *)

(** Modelled from the spec: the macro [HOUR] is defined in a header that is
    not part of WSPRbeacon.c; the spec gives the second of the hour as
    [unixNow mod 3600] and the holdover bound [2 * HOUR] as 7200 seconds. *)
Definition HOUR : Z := 3600.

(** Modelled from the spec: the macro [MINUTE] is defined in a header that is
    not part of WSPRbeacon.c; the spec gives the slot width [2 * MINUTE] as
    120 seconds. *)
Definition MINUTE : Z := 60.

(** Modelled from the spec: the macro [kHz] is defined in a header that is
    not part of WSPRbeacon.c; the spec gives the floor [1100 * kHz] as
    1,100,000 Hz. *)
Definition kHz : Z := 1000.

(** Modelled from the spec: the macro [ZERO] is defined in a header that is
    not part of WSPRbeacon.c; the spec gives the qualifying test as
    [slotIndex mod skipFactor == 0]. *)
Definition ZERO : Z := 0.

(** What WSPRbeacon.c takes from its headers and collaborators without
    this file fixing it: the value of the macro [YES], the protocol's symbol
    count, the range of the integer type of the channel's [_ix_input] field
    (its values are [0 .. ix_input_range - 1]), and the encoder, which
    writes the output buffer from the callsign, the locator and the power. *)
Class Platform := {
  YES : Z;
  WSPR_SYMBOL_COUNT : Z;
  ix_input_range : Z;
  wspr_encode : list Z -> list Z -> Z -> list Z -> list Z
}.

(** ** Data model *)

(** The fields of the GPS time data that the scheduler reads. *)
Record GPStimeData := mkGPStimeData {
  _u32_nmea_gprmc_count : Z;
  _u8_is_solution_active : Z;
  _u64_sysclk_nmea_last : Z;
  _u32_utime_nmea_last : Z
}.

Record GPStimeContext := mkGPStimeContext {
  _time_data : GPStimeData
}.

(** Modelled from the spec: the oscillator driver is not part of
    WSPRbeacon.c; the spec describes it by [start(oscillatorHandle)] and
    [stop(oscillatorHandle)], so the oscillator carries, next to its GPS
    time context, whether it has been started. *)
Record PioDco := mkPioDco {
  _pGPStime : GPStimeContext;
  dco_running : bool
}.

Record TxChannelContext := mkTxChannelContext {
  _ix_input : Z;
  _pbyte_buffer : list Z;
  _p_oscillator : PioDco;
  _u32_dialfreqhz : Z;
  _i_tx_gpio : Z
}.

Record TxScheduler := mkTxScheduler {
  _u8_tx_GPS_past_time : Z;
  _u8_tx_slot_skip : Z
}.

(** The beacon context. [_pTX] is a pointer that the code checks against
    NULL: [None] is NULL. The pointers below it ([_p_oscillator],
    [_pGPStime]) are followed unchecked and are embedded by value, so every
    context has an oscillator of its own. Contexts built on one and the
    same oscillator are outside this model: nothing is stated here about
    the oscillator of one context after a call on another context. *)
Record WSPRbeaconContext := mkWSPRbeaconContext {
  _pu8_callsign : list Z;
  _pu8_locator : list Z;
  _u8_txpower : Z;
  _pu8_outbuf : list Z;
  _pTX : option TxChannelContext;
  _txSched : TxScheduler
}.

Definition set_outbuf (buf : list Z) (c : WSPRbeaconContext) : WSPRbeaconContext :=
  {| _pu8_callsign := _pu8_callsign c; _pu8_locator := _pu8_locator c;
     _u8_txpower := _u8_txpower c; _pu8_outbuf := buf;
     _pTX := _pTX c; _txSched := _txSched c |}.

Definition set_pTX (tx : TxChannelContext) (c : WSPRbeaconContext) : WSPRbeaconContext :=
  {| _pu8_callsign := _pu8_callsign c; _pu8_locator := _pu8_locator c;
     _u8_txpower := _u8_txpower c; _pu8_outbuf := _pu8_outbuf c;
     _pTX := Some tx; _txSched := _txSched c |}.

Definition set_running (b : bool) (tx : TxChannelContext) : TxChannelContext :=
  {| _ix_input := _ix_input tx; _pbyte_buffer := _pbyte_buffer tx;
     _p_oscillator := {| _pGPStime := _pGPStime (_p_oscillator tx); dco_running := b |};
     _u32_dialfreqhz := _u32_dialfreqhz tx; _i_tx_gpio := _i_tx_gpio tx |}.

Definition set_tx_data (ix : Z) (buf : list Z) (tx : TxChannelContext) : TxChannelContext :=
  {| _ix_input := ix; _pbyte_buffer := buf;
     _p_oscillator := _p_oscillator tx;
     _u32_dialfreqhz := _u32_dialfreqhz tx; _i_tx_gpio := _i_tx_gpio tx |}.

(** A pointer to a beacon context: NULL, or the address of a cell. *)
Definition ptr := option nat.

(** The machine: the [static int itx_trigger] of the scheduler, the contexts
    that live in memory, and the microsecond timer behind [GetUptime64]. *)
Record Machine := mkMachine {
  itx_trigger : Z;
  heap : list WSPRbeaconContext;
  uptime64 : Z
}.

Definition with_trigger (v : Z) (m : Machine) : Machine :=
  {| itx_trigger := v; heap := heap m; uptime64 := uptime64 m |}.

Definition with_heap (h : list WSPRbeaconContext) (m : Machine) : Machine :=
  {| itx_trigger := itx_trigger m; heap := h; uptime64 := uptime64 m |}.

(** Calls to the collaborators, in the order they are made. *)
Inductive Event :=
| Call_StampPrintf (fmt : string) (args : list Z)
| Call_wspr_encode (callsign locator : list Z) (power : Z)
| Call_PioDCOStart
| Call_PioDCOStop
| Call_sleep_ms (ms : Z)
| Call_memcpy (n : Z).

Definition is_log (e : Event) : bool :=
  match e with Call_StampPrintf _ _ => true | _ => false end.

(** The calls that are not log output. *)
Fixpoint actions (tr : list Event) : list Event :=
  match tr with
  | [] => []
  | e :: tr' => if is_log e then actions tr' else e :: actions tr'
  end.

(** ** The monad of the C functions *)

Inductive Outcome (A : Type) : Type :=
| Returned (a : A)
| Aborted
| Undefined.
Arguments Returned {A} a.
Arguments Aborted {A}.
Arguments Undefined {A}.

Record Run (A : Type) := mkRun {
  outcome : Outcome A;
  final : Machine;
  calls : list Event
}.
Arguments mkRun {A} _ _ _.
Arguments outcome {A} _.
Arguments final {A} _.
Arguments calls {A} _.

Definition M (A : Type) : Type := Machine -> Run A.

Definition ret {A} (a : A) : M A := fun m => mkRun (Returned a) m [].

(** Sequencing: the second computation runs from the state the first one
    left, unless the first one did not return; the calls accumulate. *)
Definition bind {A B} (x : M A) (f : A -> M B) : M B := fun m =>
  match x m with
  | mkRun (Returned a) m1 cs1 =>
      match f a m1 with
      | mkRun o m2 cs2 => mkRun o m2 (cs1 ++ cs2)
      end
  | mkRun Aborted m1 cs1 => mkRun Aborted m1 cs1
  | mkRun Undefined m1 cs1 => mkRun Undefined m1 cs1
  end.

Notation "x <- c1 ;; c2" := (bind c1 (fun x => c2))
  (at level 100, c1 at next level, right associativity).
Notation "c1 ;; c2" := (bind c1 (fun _ => c2))
  (at level 100, right associativity).

Definition abort {A} : M A := fun m => mkRun Aborted m [].
Definition undefined {A} : M A := fun m => mkRun Undefined m [].
Definition emit (e : Event) : M unit := fun m => mkRun (Returned tt) m [e].

(** Modelled from the spec: the macro [assert_] is defined in a header that
    is not part of WSPRbeacon.c; the spec makes a violated precondition a
    fatal error that aborts and returns no status. *)
Definition assert_ (b : bool) : M unit := if b then ret tt else abort.

Definition is_non_null {A} (p : option A) : bool :=
  match p with Some _ => true | None => false end.

(** Following a pointer without a check: NULL is undefined behaviour. *)
Definition deref {A} (p : option A) : M A :=
  match p with Some a => ret a | None => undefined end.

(** Reading and writing the context that [pctx] points to. *)
Definition load (pctx : ptr) : M WSPRbeaconContext := fun m =>
  match pctx with
  | Some a => match heap m !! a with
              | Some c => mkRun (Returned c) m []
              | None => mkRun Undefined m []
              end
  | None => mkRun Undefined m []
  end.

Definition store (pctx : ptr) (c : WSPRbeaconContext) : M unit := fun m =>
  match pctx with
  | Some a => mkRun (Returned tt) (with_heap (<[a := c]> (heap m)) m) []
  | None => mkRun Undefined m []
  end.

Definition get_itx_trigger : M Z := fun m => mkRun (Returned (itx_trigger m)) m [].

Definition set_itx_trigger (v : Z) : M unit := fun m =>
  mkRun (Returned tt) (with_trigger v m) [].

Definition GetUptime64 : M Z := fun m => mkRun (Returned (uptime64 m)) m [].

Definition StampPrintf (fmt : string) (args : list Z) : M unit :=
  emit (Call_StampPrintf fmt args).

(** The wait returns after the delay. [uptime64] is the value the timer
    has when a function is entered; the time that passes during the wait
    shows in the value the next poll reads, and nothing is stated here
    about the timer after a call that waits. *)
Definition sleep_ms (ms : Z) : M unit := emit (Call_sleep_ms ms).

(** [memcpy dst src n] on arrays held as lists: the first [n] cells of
    [dst] are those of [src]. *)
Definition memcpy (dst src : list Z) (n : Z) : list Z :=
  take (Z.to_nat n) src ++ drop (Z.to_nat n) dst.

(** Modelled from the spec: [PioDCOStart] belongs to the oscillator driver,
    which is not part of WSPRbeacon.c; it starts the RF-generation hardware
    of the oscillator it is given, here [pctx->_pTX->_p_oscillator]. *)
Definition PioDCOStart (pctx : ptr) : M unit :=
  ctx <- load pctx ;;
  tx <- deref (_pTX ctx) ;;
  emit Call_PioDCOStart ;;
  store pctx (set_pTX (set_running true tx) ctx).

(** Modelled from the spec: [PioDCOStop] belongs to the oscillator driver,
    which is not part of WSPRbeacon.c; it stops the RF-generation hardware
    of the oscillator it is given, here [pctx->_pTX->_p_oscillator]. *)
Definition PioDCOStop (pctx : ptr) : M unit :=
  ctx <- load pctx ;;
  tx <- deref (_pTX ctx) ;;
  emit Call_PioDCOStop ;;
  store pctx (set_pTX (set_running false tx) ctx).

(** ** The functions of WSPRbeacon.c *)

Section Beacon.

Context {platform : Platform}.

(** [WSPRbeaconCreatePacket]: the encoder fills [_pu8_outbuf]. *)
Definition WSPRbeaconCreatePacket (pctx : ptr) : M Z :=
  assert_ (is_non_null pctx) ;;
  ctx <- load pctx ;;
  emit (Call_wspr_encode (_pu8_callsign ctx) (_pu8_locator ctx) (_u8_txpower ctx)) ;;
  store pctx (set_outbuf
                (wspr_encode (_pu8_callsign ctx) (_pu8_locator ctx)
                             (_u8_txpower ctx) (_pu8_outbuf ctx)) ctx) ;;
  ret 0.

(** [WSPRbeaconSendPacket]: three assertions, the copy into the channel's
    buffer, and the addition to [_ix_input] in the field's type. *)
Definition WSPRbeaconSendPacket (pctx : ptr) : M Z :=
  assert_ (is_non_null pctx) ;;
  ctx <- load pctx ;;
  assert_ (is_non_null (_pTX ctx)) ;;
  tx <- deref (_pTX ctx) ;;
  assert_ (1100 * kHz <? _u32_dialfreqhz tx) ;;
  emit (Call_memcpy WSPR_SYMBOL_COUNT) ;;
  store pctx
    (set_pTX
       (set_tx_data ((_ix_input tx + WSPR_SYMBOL_COUNT) mod ix_input_range)
                    (memcpy (_pbyte_buffer tx) (_pu8_outbuf ctx) WSPR_SYMBOL_COUNT)
                    tx)
       ctx) ;;
  ret 0.

(** The locals of the scheduler, as functions of what it reads. *)

Definition u64_GPS_last_age_sec (u64tmnow : Z) (td : GPStimeData) : Z :=
  CInt.div (CInt.to_uint64 (u64tmnow - _u64_sysclk_nmea_last td)) 1000000.

Definition is_GPS_override (sched : TxScheduler) : Z :=
  CInt.of_bool (_u8_tx_GPS_past_time sched =? YES).

(** The condition of the outer [if]. *)
Definition GPS_eligible (is_GPS_active is_GPS_override age : Z) : bool :=
  CInt.truth is_GPS_active
  || (CInt.truth is_GPS_override && (age <? 2 * HOUR)).

Definition u32_unixtime_now (td : GPStimeData) (age : Z) : Z :=
  CInt.to_uint32 (CInt.to_uint64 (_u32_utime_nmea_last td + age)).

Definition isec_of_hour (u32_unixtime_now : Z) : Z :=
  CInt.rem u32_unixtime_now HOUR.

Definition islot_number (u32_unixtime_now : Z) : Z :=
  CInt.div (isec_of_hour u32_unixtime_now) (2 * MINUTE).

(** [islot_number % _u8_tx_slot_skip]: a zero divisor is undefined. *)
Definition islot_modulo (islot_number skip : Z) : M Z :=
  if skip =? 0 then undefined else ret (CInt.rem islot_number skip).

Definition WSPRbeaconTxScheduler (pctx : ptr) (verbose : Z) : M Z :=
  assert_ (is_non_null pctx) ;;
  u64tmnow <- GetUptime64 ;;
  ctx <- load pctx ;;
  tx <- deref (_pTX ctx) ;;
  let td := _time_data (_pGPStime (_p_oscillator tx)) in
  let is_GPS_available := _u32_nmea_gprmc_count td in
  let is_GPS_active := _u8_is_solution_active td in
  let is_GPS_override := is_GPS_override (_txSched ctx) in
  let u64_GPS_last_age_sec := u64_GPS_last_age_sec u64tmnow td in
  StampPrintf "%llu %lu %lu %lu %llu"
    [u64tmnow; is_GPS_available; is_GPS_active; is_GPS_override;
     u64_GPS_last_age_sec] ;;
  if negb (CInt.truth is_GPS_available) then
    StampPrintf "Waiting for GPS receiver..." [] ;;
    ret (-1)
  else
    (if GPS_eligible is_GPS_active is_GPS_override u64_GPS_last_age_sec then
       let u32_unixtime_now := u32_unixtime_now td u64_GPS_last_age_sec in
       let islot_number := islot_number u32_unixtime_now in
       islot_modulo <- islot_modulo islot_number (_u8_tx_slot_skip (_txSched ctx)) ;;
       if ZERO =? islot_modulo then
         trigger <- get_itx_trigger ;;
         if negb (CInt.truth trigger) then
           set_itx_trigger 1 ;;
           StampPrintf "Start transmission." [] ;;
           WSPRbeaconCreatePacket pctx ;;
           PioDCOStart pctx ;;
           sleep_ms 100 ;;
           WSPRbeaconSendPacket pctx ;;
           ret tt
         else ret tt
       else
         set_itx_trigger 0 ;;
         StampPrintf "NO transmission slot." [] ;;
         PioDCOStop pctx
     else ret tt) ;;
    ret 0.

End Beacon.

(** ** What one poll reads *)

Section Poll.

Context {platform : Platform}.

Definition time_data_of (tx : TxChannelContext) : GPStimeData :=
  _time_data (_pGPStime (_p_oscillator tx)).

(** [u64_GPS_last_age_sec] of a poll on machine [m]. *)
Definition age_of (m : Machine) (tx : TxChannelContext) : Z :=
  u64_GPS_last_age_sec (uptime64 m) (time_data_of tx).

Definition eligible_of (m : Machine) (c : WSPRbeaconContext) (tx : TxChannelContext) : bool :=
  GPS_eligible (_u8_is_solution_active (time_data_of tx))
               (is_GPS_override (_txSched c)) (age_of m tx).

(** [u32_unixtime_now] and [islot_number] of a poll on machine [m]. *)
Definition unixtime_of (m : Machine) (tx : TxChannelContext) : Z :=
  u32_unixtime_now (time_data_of tx) (age_of m tx).

Definition slot_of (m : Machine) (tx : TxChannelContext) : Z :=
  islot_number (unixtime_of m tx).

(** The first line of log output of every poll. *)
Definition poll_log (m : Machine) (c : WSPRbeaconContext) (tx : TxChannelContext) : Event :=
  Call_StampPrintf "%llu %lu %lu %lu %llu"
    [uptime64 m; _u32_nmea_gprmc_count (time_data_of tx);
     _u8_is_solution_active (time_data_of tx); is_GPS_override (_txSched c);
     age_of m tx].

(** The context after the encoder has run. *)
Definition encoded (c : WSPRbeaconContext) : WSPRbeaconContext :=
  set_outbuf (wspr_encode (_pu8_callsign c) (_pu8_locator c)
                          (_u8_txpower c) (_pu8_outbuf c)) c.

(** The channel after the handoff of [outbuf]. *)
Definition handed_off (outbuf : list Z) (tx : TxChannelContext) : TxChannelContext :=
  set_tx_data ((_ix_input tx + WSPR_SYMBOL_COUNT) mod ix_input_range)
              (memcpy (_pbyte_buffer tx) outbuf WSPR_SYMBOL_COUNT) tx.

(** What a poll finds, in the order the scheduler tests it. *)
Inductive Sight :=
| NoFix
| Ineligible
| SkipZero
| SlotQualifying
| SlotOther.

Definition sight (m : Machine) (c : WSPRbeaconContext) (tx : TxChannelContext) : Sight :=
  if negb (CInt.truth (_u32_nmea_gprmc_count (time_data_of tx))) then NoFix
  else if negb (eligible_of m c tx) then Ineligible
  else if _u8_tx_slot_skip (_txSched c) =? 0 then SkipZero
  else if ZERO =? CInt.rem (slot_of m tx) (_u8_tx_slot_skip (_txSched c))
       then SlotQualifying
       else SlotOther.

(** The context after the encoder and the oscillator start, and after the
    handoff that follows them. *)
Definition keyed (c : WSPRbeaconContext) (tx : TxChannelContext) : WSPRbeaconContext :=
  set_pTX (set_running true tx) (encoded c).

Definition fired (c : WSPRbeaconContext) (tx : TxChannelContext) : WSPRbeaconContext :=
  set_pTX (handed_off (_pu8_outbuf (encoded c)) (set_running true tx)) (keyed c tx).

Definition idled (c : WSPRbeaconContext) (tx : TxChannelContext) : WSPRbeaconContext :=
  set_pTX (set_running false tx) c.

(** The run of one poll of the context [c] at address [a], by cases. *)
Definition poll_cases (m : Machine) (a : nat) (c : WSPRbeaconContext)
           (tx : TxChannelContext) : Run Z :=
  match sight m c tx with
  | NoFix =>
      mkRun (Returned (-1)) m
        [poll_log m c tx; Call_StampPrintf "Waiting for GPS receiver..." []]
  | Ineligible => mkRun (Returned 0) m [poll_log m c tx]
  | SkipZero => mkRun Undefined m [poll_log m c tx]
  | SlotQualifying =>
      if CInt.truth (itx_trigger m) then mkRun (Returned 0) m [poll_log m c tx]
      else if 1100 * kHz <? _u32_dialfreqhz tx then
        mkRun (Returned 0)
          (with_heap (<[a := fired c tx]> (heap m)) (with_trigger 1 m))
          [poll_log m c tx; Call_StampPrintf "Start transmission." [];
           Call_wspr_encode (_pu8_callsign c) (_pu8_locator c) (_u8_txpower c);
           Call_PioDCOStart; Call_sleep_ms 100; Call_memcpy WSPR_SYMBOL_COUNT]
      else
        mkRun Aborted
          (with_heap (<[a := keyed c tx]> (heap m)) (with_trigger 1 m))
          [poll_log m c tx; Call_StampPrintf "Start transmission." [];
           Call_wspr_encode (_pu8_callsign c) (_pu8_locator c) (_u8_txpower c);
           Call_PioDCOStart; Call_sleep_ms 100]
  | SlotOther =>
      mkRun (Returned 0)
        (with_heap (<[a := idled c tx]> (heap m)) (with_trigger 0 m))
        [poll_log m c tx; Call_StampPrintf "NO transmission slot." [];
         Call_PioDCOStop]
  end.

(** The conditions of the scheduler as propositions, in the words of the
    spec: a fix was received; the reference is eligible (solution active,
    or override enabled and the fix younger than 7200 s); the slot index is
    a multiple of the skip factor. *)
Definition fix_received (tx : TxChannelContext) : Prop :=
  _u32_nmea_gprmc_count (time_data_of tx) <> 0.

Definition reference_eligible (m : Machine) (c : WSPRbeaconContext)
           (tx : TxChannelContext) : Prop :=
  _u8_is_solution_active (time_data_of tx) <> 0
  \/ (_u8_tx_GPS_past_time (_txSched c) = YES /\ age_of m tx < 7200).

Definition qualifying_slot (m : Machine) (c : WSPRbeaconContext)
           (tx : TxChannelContext) : Prop :=
  slot_of m tx mod _u8_tx_slot_skip (_txSched c) = 0.

(** The channel of the context at address [a]. *)
Definition tx_of (m : Machine) (a : nat) : option TxChannelContext :=
  match heap m !! a with
  | Some c => _pTX c
  | None => None
  end.

(** The keying calls: encoder, oscillator start, settle delay, handoff. *)
Definition is_keying (e : Event) : bool :=
  match e with
  | Call_wspr_encode _ _ _ | Call_PioDCOStart | Call_sleep_ms _ | Call_memcpy _ => true
  | Call_StampPrintf _ _ | Call_PioDCOStop => false
  end.

(** A run triggers a transmission when it makes a keying call. *)
Definition triggered {A} (r : Run A) : bool := existsb is_keying (calls r).

(** The polling loop of the caller. Between two polls the GPS receiver,
    the timer and the consumer of the channel change the memory; the one
    thing a poll hands to the next is the static latch. A tick is the
    world as one poll finds it. *)
Record Tick := mkTick {
  tick_pctx : nat;
  tick_verbose : Z;
  tick_heap : list WSPRbeaconContext;
  tick_uptime : Z
}.

Definition tick_machine (latch : Z) (t : Tick) : Machine :=
  {| itx_trigger := latch; heap := tick_heap t; uptime64 := tick_uptime t |}.

Definition poll (latch : Z) (t : Tick) : Run Z :=
  WSPRbeaconTxScheduler (Some (tick_pctx t)) (tick_verbose t) (tick_machine latch t).

(** The runs of successive polls; the loop ends with a poll that does
    not return. *)
Fixpoint polls (latch : Z) (ts : list Tick) : list (Run Z) :=
  match ts with
  | [] => []
  | t :: ts' =>
      let r := poll latch t in
      match outcome r with
      | Returned _ => r :: polls (itx_trigger (final r)) ts'
      | _ => [r]
      end
  end.

(** What the poll of a tick finds, when its context is valid. *)
Definition tick_sight (t : Tick) : option Sight :=
  match tick_heap t !! tick_pctx t with
  | Some c =>
      match _pTX c with
      | Some tx => Some (sight (tick_machine 0 t) c tx)
      | None => None
      end
  | None => None
  end.

(** A tick at which the poll sees no slot other than a qualifying one. *)
Definition no_other_slot (t : Tick) : bool :=
  match tick_sight t with
  | Some NoFix | Some Ineligible | Some SlotQualifying => true
  | _ => false
  end.

End Poll.


(** ** The other functions of WSPRbeacon.c *)

Section Setup.

Context {platform : Platform}.

Definition set_dialfreq (freq_hz : Z) (tx : TxChannelContext) : TxChannelContext :=
  {| _ix_input := _ix_input tx; _pbyte_buffer := _pbyte_buffer tx;
     _p_oscillator := _p_oscillator tx;
     _u32_dialfreqhz := freq_hz; _i_tx_gpio := _i_tx_gpio tx |}.

Definition set_gpio (gpio : Z) (tx : TxChannelContext) : TxChannelContext :=
  {| _ix_input := _ix_input tx; _pbyte_buffer := _pbyte_buffer tx;
     _p_oscillator := _p_oscillator tx;
     _u32_dialfreqhz := _u32_dialfreqhz tx; _i_tx_gpio := gpio |}.

(** [WSPRbeaconSetDialFreq]: one assertion on [pctx]; [_pTX] is followed
    unchecked. *)
Definition WSPRbeaconSetDialFreq (pctx : ptr) (freq_hz : Z) : M unit :=
  assert_ (is_non_null pctx) ;;
  ctx <- load pctx ;;
  tx <- deref (_pTX ctx) ;;
  store pctx (set_pTX (set_dialfreq freq_hz tx) ctx).

(** The characters of the C string at the head of [src]: those before the
    first NUL (the end of the list stands for a NUL). *)
Fixpoint c_string (src : list Z) : list Z :=
  match src with
  | [] => []
  | x :: src' => if x =? 0 then [] else x :: c_string src'
  end.

(** [strncpy dst src n]: at most [n] characters of the string, padded with
    NULs up to [n]; no NUL is written when the string has [n] characters or
    more. The cells of [dst] from [n] on are kept. *)
Definition strncpy (dst src : list Z) (n : nat) : list Z :=
  let s := take n (c_string src) in
  s ++ repeat 0 (n - length s)%nat ++ drop n dst.

Definition set_callsign (s : list Z) (c : WSPRbeaconContext) : WSPRbeaconContext :=
  {| _pu8_callsign := s; _pu8_locator := _pu8_locator c;
     _u8_txpower := _u8_txpower c; _pu8_outbuf := _pu8_outbuf c;
     _pTX := _pTX c; _txSched := _txSched c |}.

Definition set_locator (s : list Z) (c : WSPRbeaconContext) : WSPRbeaconContext :=
  {| _pu8_callsign := _pu8_callsign c; _pu8_locator := s;
     _u8_txpower := _u8_txpower c; _pu8_outbuf := _pu8_outbuf c;
     _pTX := _pTX c; _txSched := _txSched c |}.

Definition set_txpower (p : Z) (c : WSPRbeaconContext) : WSPRbeaconContext :=
  {| _pu8_callsign := _pu8_callsign c; _pu8_locator := _pu8_locator c;
     _u8_txpower := p; _pu8_outbuf := _pu8_outbuf c;
     _pTX := _pTX c; _txSched := _txSched c |}.

Definition set_pTX_pointer (p : option TxChannelContext) (c : WSPRbeaconContext)
  : WSPRbeaconContext :=
  {| _pu8_callsign := _pu8_callsign c; _pu8_locator := _pu8_locator c;
     _u8_txpower := _u8_txpower c; _pu8_outbuf := _pu8_outbuf c;
     _pTX := p; _txSched := _txSched c |}.

(** What [WSPRbeaconInit] takes from the headers and the C library without
    this file fixing it: the sizes of the three arrays of the context, the
    number of contexts the allocator can hold, and the constructor of the
    transmit channel, which returns a channel on the oscillator it is given
    or NULL. *)
Variables (sizeof_callsign sizeof_locator sizeof_outbuf : nat).
Variable heap_cells : nat.
Variable TxChannelInit : Z -> Z -> PioDco -> option TxChannelContext.

(** The context [calloc] returns: every byte zero. *)
Definition zero_context : WSPRbeaconContext :=
  {| _pu8_callsign := repeat 0 sizeof_callsign;
     _pu8_locator := repeat 0 sizeof_locator;
     _u8_txpower := 0;
     _pu8_outbuf := repeat 0 sizeof_outbuf;
     _pTX := None;
     _txSched := {| _u8_tx_GPS_past_time := 0; _u8_tx_slot_skip := 0 |} |}.

(** [calloc(1, sizeof(WSPRbeaconContext))]: a new zeroed cell at the next
    address, or NULL when the allocator is full. *)
Definition calloc_context : M ptr := fun m =>
  if (length (heap m) <? heap_cells)%nat
  then mkRun (Returned (Some (length (heap m))))
             (with_heap (heap m ++ [zero_context]) m) []
  else mkRun (Returned None) m [].

Definition WSPRbeaconInit (pcallsign pgridsquare : list Z) (txpow_dbm : Z)
           (pdco : option PioDco) (dial_freq_hz shift_freq_hz : Z) (gpio : Z)
  : M ptr :=
  assert_ (is_non_null pdco) ;;
  p <- calloc_context ;;
  assert_ (is_non_null p) ;;
  ctx <- load p ;;
  store p (set_callsign (strncpy (_pu8_callsign ctx) pcallsign sizeof_callsign) ctx) ;;
  ctx <- load p ;;
  store p (set_locator (strncpy (_pu8_locator ctx) pgridsquare sizeof_locator) ctx) ;;
  ctx <- load p ;;
  store p (set_txpower (CInt.wrap 8 txpow_dbm) ctx) ;;
  dco <- deref pdco ;;
  ctx <- load p ;;
  store p (set_pTX_pointer (TxChannelInit 682667 0 dco) ctx) ;;
  ctx <- load p ;;
  assert_ (is_non_null (_pTX ctx)) ;;
  tx <- deref (_pTX ctx) ;;
  store p (set_pTX (set_dialfreq (CInt.to_uint32 (dial_freq_hz + shift_freq_hz)) tx)
                   ctx) ;;
  ctx <- load p ;;
  tx <- deref (_pTX ctx) ;;
  store p (set_pTX (set_gpio gpio tx) ctx) ;;
  ret p.

(** The context that a successful [WSPRbeaconInit] builds on the channel
    [tx] that [TxChannelInit] returned. *)
Definition initialised (pcallsign pgridsquare : list Z) (txpow_dbm : Z)
           (dial_freq_hz shift_freq_hz gpio : Z) (tx : TxChannelContext)
  : WSPRbeaconContext :=
  {| _pu8_callsign := strncpy (repeat 0 sizeof_callsign) pcallsign sizeof_callsign;
     _pu8_locator := strncpy (repeat 0 sizeof_locator) pgridsquare sizeof_locator;
     _u8_txpower := CInt.wrap 8 txpow_dbm;
     _pu8_outbuf := repeat 0 sizeof_outbuf;
     _pTX := Some (set_gpio gpio
                     (set_dialfreq (CInt.to_uint32 (dial_freq_hz + shift_freq_hz)) tx));
     _txSched := {| _u8_tx_GPS_past_time := 0; _u8_tx_slot_skip := 0 |} |}.

End Setup.

(** The caller handing off [n] packets in a row. *)
Fixpoint send_packets {platform : Platform} (n : nat) (pctx : ptr) : M Z :=
  match n with
  | O => ret 0
  | S k => WSPRbeaconSendPacket pctx ;; send_packets k pctx
  end.

(** The skip factor a poll of the tick reads, when its context is valid,
    and the ticks whose skip factor is 1. *)
Definition tick_skip (t : Tick) : option Z :=
  match tick_heap t !! tick_pctx t with
  | Some c =>
      match _pTX c with
      | Some _ => Some (_u8_tx_slot_skip (_txSched c))
      | None => None
      end
  | None => None
  end.

Definition every_slot_tick (t : Tick) : bool :=
  match tick_skip t with
  | Some k => k =? 1
  | None => false
  end.

(** ** Concrete inputs *)

(** A platform for the examples: [YES] is 1, the frame has 162 symbols,
    [_ix_input] is an 8-bit index, and a stand-in encoder fills the frame
    with one symbol. *)
Definition pico : Platform :=
  {| YES := 1;
     WSPR_SYMBOL_COUNT := 162;
     ix_input_range := 256;
     wspr_encode := fun _ _ power outbuf =>
                      memcpy outbuf (repeat (power mod 4) 162) 162 |}.

(** A beacon context with the given GPS time data, schedule, dial frequency
    and channel index; the oscillator is stopped and the buffers are zero. *)
Definition beacon (count active sysclk_last utime_last past_time skip freq ix : Z)
  : WSPRbeaconContext :=
  {| _pu8_callsign := [82; 50; 66; 68; 89];
     _pu8_locator := [75; 79; 56; 53];
     _u8_txpower := 10;
     _pu8_outbuf := repeat 0 256;
     _pTX := Some {| _ix_input := ix;
                     _pbyte_buffer := repeat 0 256;
                     _p_oscillator :=
                       {| _pGPStime :=
                            {| _time_data :=
                                 {| _u32_nmea_gprmc_count := count;
                                    _u8_is_solution_active := active;
                                    _u64_sysclk_nmea_last := sysclk_last;
                                    _u32_utime_nmea_last := utime_last |} |};
                          dco_running := false |};
                     _u32_dialfreqhz := freq;
                     _i_tx_gpio := 6 |};
     _txSched := {| _u8_tx_GPS_past_time := past_time; _u8_tx_slot_skip := skip |} |}.

(** The channel of a context built by [beacon]. *)
Definition channel (c : WSPRbeaconContext) : TxChannelContext :=
  match _pTX c with
  | Some tx => tx
  | None => {| _ix_input := 0; _pbyte_buffer := [];
               _p_oscillator :=
                 {| _pGPStime := {| _time_data := mkGPStimeData 0 0 0 0 |};
                    dco_running := false |};
               _u32_dialfreqhz := 0; _i_tx_gpio := 0 |}
  end.

(** A beacon on the 40 m band with a fix taken at the top of an hour (unix
    time 1699999200) when the timer read 5 s; the solution is active and
    every slot qualifies. *)
Definition beacon_40m : WSPRbeaconContext :=
  beacon 1 1 5000000 1699999200 0 1 7040100 0.

(** A second beacon, on the 20 m band, with the same fix. *)
Definition beacon_20m : WSPRbeaconContext :=
  beacon 1 1 5000000 1699999200 0 1 14097100 0.

(** The same fix, transmitting in every second slot. *)
Definition beacon_alternate : WSPRbeaconContext :=
  beacon 1 1 5000000 1699999200 0 2 7040100 0.

(** The same fix with the solution lost: without the override, and with it. *)
Definition beacon_lost : WSPRbeaconContext :=
  beacon 1 0 5000000 1699999200 0 1 7040100 0.

Definition beacon_holdover : WSPRbeaconContext :=
  beacon 1 0 5000000 1699999200 1 1 7040100 0.

(** No fix yet, the override enabled. *)
Definition beacon_cold : WSPRbeaconContext :=
  beacon 0 0 0 0 1 1 7040100 0.

(** A fix taken one second before the unix time leaves 32 bits. *)
Definition beacon_2106 : WSPRbeaconContext :=
  beacon 1 1 5000000 4294967295 0 1 7040100 0.

(** The same late fix, transmitting in every third slot. *)
Definition beacon_2106_third : WSPRbeaconContext :=
  beacon 1 1 5000000 4294967295 0 3 7040100 0.

(** The channel index at 100. *)
Definition beacon_ix100 : WSPRbeaconContext :=
  beacon 1 1 5000000 1699999200 0 1 7040100 100.

(** A dial frequency exactly at the floor. *)
Definition beacon_low : WSPRbeaconContext :=
  beacon 1 1 5000000 1699999200 0 1 1100000 0.

(** The solution lost, with the oscillator left running by an earlier
    transmission. *)
Definition beacon_lost_keyed : WSPRbeaconContext :=
  set_pTX (set_running true (channel beacon_lost)) beacon_lost.

(** Machines: the latch, the memory and the timer as a poll finds them. *)
Definition m_fresh : Machine := mkMachine 0 [beacon_40m] 5000000.
Definition m_latched : Machine := mkMachine 1 [beacon_40m] 65000000.
Definition m_cold : Machine := mkMachine 0 [beacon_cold] 10000000.
Definition m_lost : Machine := mkMachine 0 [beacon_lost] 65000000.
Definition m_holdover_7199 : Machine := mkMachine 0 [beacon_holdover] 7204000000.
Definition m_holdover_7200 : Machine := mkMachine 0 [beacon_holdover] 7205000000.
Definition m_2106 : Machine := mkMachine 0 [beacon_2106] 6000000.
Definition m_2106_third : Machine := mkMachine 0 [beacon_2106_third] 6000000.
Definition m_early : Machine := mkMachine 0 [beacon_40m] 4999999.
Definition m_ix100 : Machine := mkMachine 0 [beacon_ix100] 5000000.
Definition m_low : Machine := mkMachine 0 [beacon_low] 5000000.
Definition m_two : Machine := mkMachine 0 [beacon_40m; beacon_20m] 5000000.
Definition m_lost_keyed : Machine := mkMachine 1 [beacon_lost_keyed] 65000000.

(** A poll of [beacon_alternate] when the timer reads [us] microseconds. *)
Definition tick_at (us : Z) : Tick :=
  {| tick_pctx := 0; tick_verbose := 1; tick_heap := [beacon_alternate];
     tick_uptime := us |}.

(** An oscillator with the fix of [beacon_40m], and a channel constructor
    that returns an idle channel with a buffer of 256 cells on the
    oscillator it is given. *)
Definition dco_40m : PioDco := _p_oscillator (channel beacon_40m).

Definition idle_on (dco : PioDco) : TxChannelContext :=
  {| _ix_input := 0; _pbyte_buffer := repeat 0 256;
     _p_oscillator := dco; _u32_dialfreqhz := 0; _i_tx_gpio := 0 |}.

Definition idle_channel (bit_period_us start : Z) (dco : PioDco)
  : option TxChannelContext := Some (idle_on dco).

(** A callsign of five characters, and one of fourteen. *)
Definition callsign_R2BDY : list Z := [82; 50; 66; 68; 89; 0].
Definition callsign_long : list Z :=
  [82; 50; 66; 68; 89; 47; 80; 79; 82; 84; 65; 66; 76; 69; 0].
Definition locator_KO85 : list Z := [75; 79; 56; 53; 0].

(** A machine with no context yet. *)
Definition m_empty : Machine := mkMachine 0 [] 5000000.

(** A beacon that transmits once an hour. *)
Definition beacon_hourly : WSPRbeaconContext :=
  beacon 1 1 5000000 1699999200 0 30 7040100 0.
Definition m_hourly : Machine := mkMachine 0 [beacon_hourly] 5000000.

(** A poll of [beacon_40m], whose skip factor is 1, at [us] microseconds. *)
Definition tick_every_slot (us : Z) : Tick :=
  {| tick_pctx := 0; tick_verbose := 1; tick_heap := [beacon_40m];
     tick_uptime := us |}.

(** [beacon_alternate] in slot 1, which does not qualify. *)
Definition m_idle : Machine := mkMachine 1 [beacon_alternate] 125000000.

(** [beacon_40m] without a channel. *)
Definition beacon_unbound : WSPRbeaconContext := set_pTX_pointer None beacon_40m.
Definition m_unbound : Machine := mkMachine 0 [beacon_unbound] 5000000.

(** ** Running the functions *)

Section Runs.

Context {platform : Platform}.

#[local] Arguments CInt.wrap : simpl never.
#[local] Arguments CInt.div : simpl never.
#[local] Arguments CInt.rem : simpl never.
#[local] Arguments CInt.truth : simpl never.
#[local] Arguments u64_GPS_last_age_sec : simpl never.
#[local] Arguments GPS_eligible : simpl never.
#[local] Arguments is_GPS_override : simpl never.
#[local] Arguments u32_unixtime_now : simpl never.
#[local] Arguments islot_number : simpl never.
#[local] Arguments memcpy : simpl never.
#[local] Arguments Z.mul : simpl never.
#[local] Arguments Z.ltb : simpl never.
#[local] Arguments Z.eqb : simpl never.

Lemma CreatePacket_run (m : Machine) (a : nat) (c : WSPRbeaconContext) :
  heap m !! a = Some c ->
  WSPRbeaconCreatePacket (Some a) m
  = mkRun (Returned 0) (with_heap (<[a := encoded c]> (heap m)) m)
      [Call_wspr_encode (_pu8_callsign c) (_pu8_locator c) (_u8_txpower c)].
Proof.
  intros Hc. unfold WSPRbeaconCreatePacket, bind, load; cbn.
  now rewrite Hc.
Qed.

Lemma PioDCOStart_run (m : Machine) (a : nat) (c : WSPRbeaconContext)
      (tx : TxChannelContext) :
  heap m !! a = Some c -> _pTX c = Some tx ->
  PioDCOStart (Some a) m
  = mkRun (Returned tt)
      (with_heap (<[a := set_pTX (set_running true tx) c]> (heap m)) m)
      [Call_PioDCOStart].
Proof.
  intros Hc Htx. unfold PioDCOStart, bind, load; cbn.
  rewrite Hc; cbn. now rewrite Htx.
Qed.

Lemma PioDCOStop_run (m : Machine) (a : nat) (c : WSPRbeaconContext)
      (tx : TxChannelContext) :
  heap m !! a = Some c -> _pTX c = Some tx ->
  PioDCOStop (Some a) m
  = mkRun (Returned tt)
      (with_heap (<[a := set_pTX (set_running false tx) c]> (heap m)) m)
      [Call_PioDCOStop].
Proof.
  intros Hc Htx. unfold PioDCOStop, bind, load; cbn.
  rewrite Hc; cbn. now rewrite Htx.
Qed.

(** [WSPRbeaconSendPacket] on a valid context, by the frequency test. *)
Lemma SendPacket_run (m : Machine) (a : nat) (c : WSPRbeaconContext)
      (tx : TxChannelContext) :
  heap m !! a = Some c -> _pTX c = Some tx ->
  WSPRbeaconSendPacket (Some a) m
  = if 1100 * kHz <? _u32_dialfreqhz tx
    then mkRun (Returned 0)
           (with_heap (<[a := set_pTX (handed_off (_pu8_outbuf c) tx) c]> (heap m)) m)
           [Call_memcpy WSPR_SYMBOL_COUNT]
    else mkRun Aborted m [].
Proof.
  intros Hc Htx. unfold WSPRbeaconSendPacket, bind, load; cbn.
  rewrite Hc; cbn. rewrite Htx; cbn.
  now destruct (1100 * kHz <? _u32_dialfreqhz tx).
Qed.

#[local] Arguments WSPRbeaconCreatePacket : simpl never.
#[local] Arguments WSPRbeaconSendPacket : simpl never.
#[local] Arguments PioDCOStart : simpl never.
#[local] Arguments PioDCOStop : simpl never.

Lemma scheduler_run (m : Machine) (a : nat) (c : WSPRbeaconContext)
      (tx : TxChannelContext) (verbose : Z) :
  heap m !! a = Some c -> _pTX c = Some tx ->
  WSPRbeaconTxScheduler (Some a) verbose m = poll_cases m a c tx.
Proof.
  intros Hc Htx.
  unfold poll_cases, sight, eligible_of, slot_of, unixtime_of, age_of, poll_log.
  unfold WSPRbeaconTxScheduler, bind, load, GetUptime64; cbn.
  rewrite Hc; cbn. rewrite Htx; cbn.
  fold (time_data_of tx).
  destruct (negb (CInt.truth (_u32_nmea_gprmc_count (time_data_of tx)))); cbn; [reflexivity|].
  destruct (GPS_eligible _ _ _); cbn; [|reflexivity].
  unfold islot_modulo.
  destruct (_u8_tx_slot_skip (_txSched c) =? 0); cbn; [reflexivity|].
  destruct (ZERO =? _); cbn.
  - destruct (CInt.truth (itx_trigger m)); cbn; [reflexivity|].
    assert (Hlt : (a < length (heap m))%nat) by (eapply lookup_lt_Some; eassumption).
    erewrite (CreatePacket_run _ a c) by exact Hc. cbn.
    erewrite (PioDCOStart_run _ a (encoded c) tx);
      [|cbn; now apply list_lookup_insert_eq|exact Htx].
    cbn. rewrite list_insert_insert_eq.
    erewrite (SendPacket_run _ a (keyed c tx) (set_running true tx));
      [|cbn; now apply list_lookup_insert_eq|reflexivity].
    cbn.
    destruct (1100 * kHz <? _u32_dialfreqhz tx); cbn; [|reflexivity].
    now rewrite list_insert_insert_eq.
  - erewrite (PioDCOStop_run _ a c tx) by eassumption. reflexivity.
Qed.

End Runs.

(** ** Arithmetic of the scheduler's locals *)

Section Arithmetic.

Context {platform : Platform}.

Lemma truth_true (x : Z) : CInt.truth x = true <-> x <> 0.
Proof.
  unfold CInt.truth. destruct (Z.eqb_spec x 0); cbn; split; intros; congruence.
Qed.

Lemma truth_false (x : Z) : CInt.truth x = false <-> x = 0.
Proof.
  unfold CInt.truth. destruct (Z.eqb_spec x 0); cbn; split; intros; congruence.
Qed.

Lemma is_GPS_override_truth (sched : TxScheduler) :
  CInt.truth (is_GPS_override sched) = true <-> _u8_tx_GPS_past_time sched = YES.
Proof.
  unfold is_GPS_override.
  destruct (Z.eqb_spec (_u8_tx_GPS_past_time sched) YES); cbn; split;
    intros; congruence.
Qed.

(** The outer condition of the scheduler, in the words of the spec:
    solution active, or override enabled and the age below 7200 s. *)
Lemma GPS_eligible_iff (active : Z) (sched : TxScheduler) (age : Z) :
  GPS_eligible active (is_GPS_override sched) age = true
  <-> active <> 0 \/ (_u8_tx_GPS_past_time sched = YES /\ age < 7200).
Proof.
  unfold GPS_eligible.
  rewrite orb_true_iff, andb_true_iff, truth_true, is_GPS_override_truth, Z.ltb_lt.
  reflexivity.
Qed.

Lemma u64_GPS_last_age_sec_range (now : Z) (td : GPStimeData) :
  0 <= u64_GPS_last_age_sec now td < 2 ^ 64.
Proof.
  unfold u64_GPS_last_age_sec, CInt.div, CInt.to_uint64, CInt.wrap.
  pose proof (Z.mod_pos_bound (now - _u64_sysclk_nmea_last td) (2 ^ 64) ltac:(lia)) as Hm.
  rewrite Z.quot_div_nonneg by lia.
  split; [apply Z.div_pos; lia|].
  apply Z.div_lt_upper_bound; lia.
Qed.

Lemma u32_unixtime_now_mod (td : GPStimeData) (age : Z) :
  u32_unixtime_now td age = (_u32_utime_nmea_last td + age) mod 2 ^ 32.
Proof.
  unfold u32_unixtime_now, CInt.to_uint32, CInt.to_uint64, CInt.wrap.
  change (2 ^ 64) with (2 ^ 32 * 2 ^ 32).
  rewrite Z.rem_mul_r by lia.
  rewrite Z.mul_comm, Z.mod_add by lia.
  now rewrite Z.mod_mod by lia.
Qed.

Lemma u32_unixtime_now_range (td : GPStimeData) (age : Z) :
  0 <= u32_unixtime_now td age < 2 ^ 32.
Proof.
  rewrite u32_unixtime_now_mod. apply Z.mod_pos_bound. lia.
Qed.

Lemma islot_number_floor (t : Z) :
  0 <= t -> islot_number t = (t mod 3600) / 120.
Proof.
  intros Ht. unfold islot_number, isec_of_hour, CInt.div, CInt.rem, HOUR, MINUTE.
  rewrite Z.rem_mod_nonneg by lia.
  pose proof (Z.mod_pos_bound t 3600 ltac:(lia)).
  now rewrite Z.quot_div_nonneg by lia.
Qed.

Lemma islot_number_range (t : Z) :
  0 <= t -> 0 <= islot_number t <= 29.
Proof.
  intros Ht. rewrite islot_number_floor by exact Ht.
  pose proof (Z.mod_pos_bound t 3600 ltac:(lia)).
  split; [apply Z.div_pos; lia|].
  apply Z.lt_succ_r. apply Z.div_lt_upper_bound; lia.
Qed.

End Arithmetic.

(** ** One poll, in the words of the spec *)

Section OnePoll.

Context {platform : Platform}.

Variables (m : Machine) (a : nat) (c : WSPRbeaconContext) (tx : TxChannelContext).

(** The reference is eligible: the solution is active, or the override is
    enabled and the last fix is younger than 7200 s. *)
Lemma eligible_of_iff : eligible_of m c tx = true <-> reference_eligible m c tx.
Proof. apply GPS_eligible_iff. Qed.

Lemma eligible_of_false : eligible_of m c tx = false <-> ~ reference_eligible m c tx.
Proof.
  rewrite <- eligible_of_iff. destruct (eligible_of m c tx); intuition congruence.
Qed.

Lemma slot_of_range : 0 <= slot_of m tx <= 29.
Proof. apply islot_number_range, u32_unixtime_now_range. Qed.

(** The remainder of C and the floor modulus vanish together. *)
Lemma rem_zero_iff (x k : Z) : k <> 0 -> (ZERO =? CInt.rem x k) = true <-> x mod k = 0.
Proof.
  intros Hk. unfold ZERO, CInt.rem. rewrite Z.eqb_eq.
  split; intros H.
  - apply Z.mod_divide; [exact Hk|]. apply Z.rem_divide; [exact Hk|]. now symmetry.
  - symmetry. apply Z.rem_divide; [exact Hk|]. now apply Z.mod_divide.
Qed.

Lemma rem_nonzero_iff (x k : Z) : k <> 0 -> (ZERO =? CInt.rem x k) = false <-> x mod k <> 0.
Proof.
  intros Hk. rewrite <- (rem_zero_iff x k Hk).
  destruct (ZERO =? CInt.rem x k); intuition congruence.
Qed.

(** Case analysis on what the poll finds, each test turned into the
    proposition it decides. *)
Ltac sight_cases :=
  unfold sight;
  destruct (CInt.truth (_u32_nmea_gprmc_count (time_data_of tx))) eqn:Efix;
  [ apply truth_true in Efix | apply truth_false in Efix ]; cbn [negb];
  [ destruct (eligible_of m c tx) eqn:Eel; cbn [negb];
    [ destruct (Z.eqb_spec (_u8_tx_slot_skip (_txSched c)) 0) as [Esk|Esk];
      [ | destruct (ZERO =? CInt.rem (slot_of m tx) (_u8_tx_slot_skip (_txSched c)))
            eqn:Eq;
          [ apply (rem_zero_iff _ _ Esk) in Eq
          | apply (rem_nonzero_iff _ _ Esk) in Eq ] ]
    | ]
  | ].

Lemma sight_NoFix :
  sight m c tx = NoFix <-> _u32_nmea_gprmc_count (time_data_of tx) = 0.
Proof. sight_cases; intuition congruence. Qed.

Lemma sight_Ineligible :
  sight m c tx = Ineligible
  <-> _u32_nmea_gprmc_count (time_data_of tx) <> 0 /\ eligible_of m c tx = false.
Proof. sight_cases; intuition congruence. Qed.

Lemma sight_SkipZero :
  sight m c tx = SkipZero
  <-> _u32_nmea_gprmc_count (time_data_of tx) <> 0
      /\ eligible_of m c tx = true
      /\ _u8_tx_slot_skip (_txSched c) = 0.
Proof. sight_cases; intuition congruence. Qed.

Lemma sight_SlotQualifying :
  sight m c tx = SlotQualifying
  <-> _u32_nmea_gprmc_count (time_data_of tx) <> 0
      /\ eligible_of m c tx = true
      /\ _u8_tx_slot_skip (_txSched c) <> 0
      /\ slot_of m tx mod _u8_tx_slot_skip (_txSched c) = 0.
Proof. sight_cases; intuition congruence. Qed.

Lemma sight_SlotOther :
  sight m c tx = SlotOther
  <-> _u32_nmea_gprmc_count (time_data_of tx) <> 0
      /\ eligible_of m c tx = true
      /\ _u8_tx_slot_skip (_txSched c) <> 0
      /\ slot_of m tx mod _u8_tx_slot_skip (_txSched c) <> 0.
Proof. sight_cases; intuition congruence. Qed.

(** A poll triggers exactly in a qualifying slot with the latch clear. *)
Lemma poll_cases_triggered :
  triggered (poll_cases m a c tx) = true
  <-> sight m c tx = SlotQualifying /\ itx_trigger m = 0.
Proof.
  unfold poll_cases. rewrite <- (truth_false (itx_trigger m)).
  destruct (sight m c tx); cbn; try (intuition congruence).
  destruct (CInt.truth (itx_trigger m)); cbn; [intuition congruence|].
  destruct (1100 * kHz <? _u32_dialfreqhz tx); cbn; intuition congruence.
Qed.

End OnePoll.

(** ** The slot index *)

(** C4: for every unix time [t] of the scheduler (a [uint32_t]), the slot
    index it computes is [(t mod 3600) / 120], with integer division by the
    2-minute slot width, and lies in 0..29. *)
Theorem islot_number_spec (t : Z) :
  0 <= t < 2 ^ 32 ->
  islot_number t = (t mod 3600) / 120 /\ 0 <= islot_number t <= 29.
Proof.
  intros [Ht _]. split.
  - now apply islot_number_floor.
  - now apply islot_number_range.
Qed.

Lemma islot_number_spec_witness :
  islot_number 1699999999 = (1699999999 mod 3600) / 120
  /\ 0 <= islot_number 1699999999 <= 29.
Proof. apply (islot_number_spec 1699999999). lia. Defined.

(** ** Eligibility of the reference *)

Section Eligibility.

Context {platform : Platform}.

(** C6: with the solution not active and the override enabled, the
    condition the scheduler tests holds exactly when the age is below
    7200 s; at an age of exactly 7200 s it fails, and the poll then leaves
    the machine as it was and makes no call other than logging. *)
Theorem override_bound_is_strict (m : Machine) (a : nat) (c : WSPRbeaconContext)
        (tx : TxChannelContext) (verbose : Z) :
  heap m !! a = Some c -> _pTX c = Some tx ->
  _u8_is_solution_active (time_data_of tx) = 0 ->
  _u8_tx_GPS_past_time (_txSched c) = YES ->
  let r := WSPRbeaconTxScheduler (Some a) verbose m in
  (eligible_of m c tx = true <-> age_of m tx < 7200)
  /\ (age_of m tx = 7200 ->
      eligible_of m c tx = false
      /\ triggered r = false /\ final r = m /\ actions (calls r) = []).
Proof.
  intros Hc Htx Hact Hovr r. subst r.
  assert (Hiff : eligible_of m c tx = true <-> age_of m tx < 7200).
  { rewrite eligible_of_iff. unfold reference_eligible. intuition congruence. }
  split; [exact Hiff|].
  intros Hage.
  assert (Hne : eligible_of m c tx = false).
  { destruct (eligible_of m c tx); [|reflexivity]. lia. }
  split; [exact Hne|].
  rewrite (scheduler_run m a c tx verbose Hc Htx).
  unfold poll_cases.
  destruct (sight m c tx) eqn:Es; cbn; auto;
    [apply sight_SlotQualifying in Es|apply sight_SlotOther in Es];
    intuition congruence.
Qed.

(** C10: when a fix was received but the reference is not eligible, the
    poll returns 0 and leaves the machine as it was: the latch keeps its
    value, the context and its oscillator keep their state (a started
    oscillator stays started), and no call other than logging is made. *)
Theorem ineligible_poll_is_inert (m : Machine) (a : nat) (c : WSPRbeaconContext)
        (tx : TxChannelContext) (verbose : Z) :
  heap m !! a = Some c -> _pTX c = Some tx ->
  fix_received tx ->
  ~ reference_eligible m c tx ->
  let r := WSPRbeaconTxScheduler (Some a) verbose m in
  outcome r = Returned 0
  /\ final r = m
  /\ actions (calls r) = []
  /\ itx_trigger (final r) = itx_trigger m
  /\ tx_of (final r) a = Some tx.
Proof.
  intros Hc Htx Hfix Hne r. subst r.
  rewrite (scheduler_run m a c tx verbose Hc Htx).
  unfold poll_cases.
  rewrite (proj2 (sight_Ineligible m c tx)
             (conj Hfix (proj2 (eligible_of_false m c tx) Hne))).
  cbn. unfold tx_of. rewrite Hc. repeat split; auto.
Qed.

End Eligibility.

(** ** The extrapolated time *)

Section Extrapolation.

Context {platform : Platform}.

(** C7, as the code has it: in every eligible poll the age is the 64-bit
    difference of the timer and the timer value of the last fix, divided by
    10^6, and involves no other clock; the extrapolated time is the last
    fix's unix time plus the age, stored in a [uint32_t], that is, reduced
    modulo 2^32, also when the sum wraps. The slot decision of the poll is
    made on that reduced value: the poll leaves the latch set exactly when
    the slot index of the reduced value is a multiple of the skip factor.
    When the sum is below 2^32 the reduced value is the sum exactly. *)
Theorem unixtime_extrapolation (m : Machine) (a : nat) (c : WSPRbeaconContext)
        (tx : TxChannelContext) (verbose : Z) :
  heap m !! a = Some c -> _pTX c = Some tx ->
  fix_received tx -> reference_eligible m c tx ->
  _u8_tx_slot_skip (_txSched c) <> 0 ->
  let r := WSPRbeaconTxScheduler (Some a) verbose m in
  let age :=
    ((uptime64 m - _u64_sysclk_nmea_last (time_data_of tx)) mod 2 ^ 64) / 1000000 in
  let unix_now := (_u32_utime_nmea_last (time_data_of tx) + age) mod 2 ^ 32 in
  age_of m tx = age
  /\ unixtime_of m tx = unix_now
  /\ (itx_trigger (final r) <> 0
      <-> ((unix_now mod 3600) / 120) mod _u8_tx_slot_skip (_txSched c) = 0)
  /\ (0 <= _u32_utime_nmea_last (time_data_of tx) ->
      _u32_utime_nmea_last (time_data_of tx) + age < 2 ^ 32 ->
      unixtime_of m tx = _u32_utime_nmea_last (time_data_of tx) + age).
Proof.
  intros Hc Htx Hfix Hel Hskip r age unix_now.
  assert (Hage : age_of m tx = age).
  { unfold age, age_of, u64_GPS_last_age_sec, CInt.div, CInt.to_uint64, CInt.wrap.
    apply Z.quot_div_nonneg; [|lia].
    apply Z.mod_pos_bound. lia. }
  assert (Hnow : unixtime_of m tx = unix_now).
  { unfold unix_now. rewrite <- Hage. apply u32_unixtime_now_mod. }
  assert (Hslot : slot_of m tx = (unix_now mod 3600) / 120).
  { unfold slot_of. rewrite Hnow. apply islot_number_floor.
    unfold unix_now. apply Z.mod_pos_bound. lia. }
  split; [exact Hage|]. split; [exact Hnow|]. split.
  - rewrite <- Hslot. subst r.
    rewrite (scheduler_run m a c tx verbose Hc Htx).
    unfold poll_cases, fix_received in *.
    apply eligible_of_iff in Hel.
    destruct (sight m c tx) eqn:Es.
    + apply sight_NoFix in Es. congruence.
    + apply sight_Ineligible in Es. intuition congruence.
    + apply sight_SkipZero in Es. intuition congruence.
    + apply sight_SlotQualifying in Es. destruct Es as (_ & _ & _ & Hq).
      destruct (CInt.truth (itx_trigger m)) eqn:El; cbn.
      * apply truth_true in El. tauto.
      * destruct (1100 * kHz <? _u32_dialfreqhz tx); cbn; split; auto; lia.
    + apply sight_SlotOther in Es. destruct Es as (_ & _ & _ & Hq).
      cbn. tauto.
  - intros Hlo Hhi. rewrite Hnow. unfold unix_now.
    pose proof (u64_GPS_last_age_sec_range (uptime64 m) (time_data_of tx)) as Hr.
    fold (age_of m tx) in Hr. rewrite Hage in Hr.
    apply Z.mod_small. lia.
Qed.

End Extrapolation.

(** ** The status and the trigger of one poll *)

Section Trigger.

Context {platform : Platform}.

(** C2, as the code has it: the poll returns -1 exactly when no fix was
    ever received. With a fix received and the reference not eligible it
    returns 0. In both cases the machine is left as it was (latch, context,
    oscillator) and no call other than logging is made. In every other
    case the poll returns 0, except that a poll that triggers with a dial
    frequency at or below 1,100,000 Hz aborts in [WSPRbeaconSendPacket],
    and that a zero skip factor makes the remainder undefined. *)
Theorem poll_status (m : Machine) (a : nat) (c : WSPRbeaconContext)
        (tx : TxChannelContext) (verbose : Z) :
  heap m !! a = Some c -> _pTX c = Some tx ->
  let r := WSPRbeaconTxScheduler (Some a) verbose m in
  (outcome r = Returned (-1) <-> ~ fix_received tx)
  /\ (~ fix_received tx \/ ~ reference_eligible m c tx ->
      final r = m /\ actions (calls r) = [])
  /\ (fix_received tx -> ~ reference_eligible m c tx -> outcome r = Returned 0)
  /\ (fix_received tx ->
      outcome r = Returned 0
      \/ (outcome r = Aborted /\ triggered r = true
          /\ _u32_dialfreqhz tx <= 1100000)
      \/ (outcome r = Undefined /\ reference_eligible m c tx
          /\ _u8_tx_slot_skip (_txSched c) = 0)).
Proof.
  intros Hc Htx r. subst r.
  rewrite (scheduler_run m a c tx verbose Hc Htx).
  unfold poll_cases, fix_received.
  rewrite <- (eligible_of_false m c tx), <- (eligible_of_iff m c tx).
  change 1100000 with (1100 * kHz).
  destruct (sight m c tx) eqn:Es.
  - apply sight_NoFix in Es. cbn. intuition congruence.
  - apply sight_Ineligible in Es. cbn. intuition congruence.
  - apply sight_SkipZero in Es. cbn. intuition congruence.
  - apply sight_SlotQualifying in Es.
    destruct (CInt.truth (itx_trigger m)); cbn; [intuition congruence|].
    destruct (Z.ltb_spec (1100 * kHz) (_u32_dialfreqhz tx)); cbn;
      intuition congruence.
  - apply sight_SlotOther in Es. cbn. intuition congruence.
Qed.

(** C1, as the code has it: with a nonzero skip factor, a poll triggers a
    transmission if and only if a fix was received, the latch is clear, the
    slot index is a multiple of the skip factor, and the reference is
    eligible (solution active, or override enabled with an age below
    7200 s). A poll that triggers sets the latch and calls, in this order,
    the encoder, the oscillator start and the 100 ms settle delay, and then
    [WSPRbeaconSendPacket]: with a dial frequency above 1,100,000 Hz the
    handoff is made and the poll returns 0, otherwise the poll aborts
    there. A poll that does not trigger makes none of these calls. *)
Theorem trigger_iff (m : Machine) (a : nat) (c : WSPRbeaconContext)
        (tx : TxChannelContext) (verbose : Z) :
  heap m !! a = Some c -> _pTX c = Some tx ->
  _u8_tx_slot_skip (_txSched c) <> 0 ->
  let r := WSPRbeaconTxScheduler (Some a) verbose m in
  let due := fix_received tx /\ itx_trigger m = 0
             /\ qualifying_slot m c tx /\ reference_eligible m c tx in
  (triggered r = true <-> due)
  /\ (due -> 1100000 < _u32_dialfreqhz tx ->
      outcome r = Returned 0
      /\ itx_trigger (final r) = 1
      /\ actions (calls r)
         = [Call_wspr_encode (_pu8_callsign c) (_pu8_locator c) (_u8_txpower c);
            Call_PioDCOStart; Call_sleep_ms 100; Call_memcpy WSPR_SYMBOL_COUNT])
  /\ (due -> _u32_dialfreqhz tx <= 1100000 ->
      outcome r = Aborted
      /\ itx_trigger (final r) = 1
      /\ actions (calls r)
         = [Call_wspr_encode (_pu8_callsign c) (_pu8_locator c) (_u8_txpower c);
            Call_PioDCOStart; Call_sleep_ms 100])
  /\ (~ due -> actions (calls r) = [] \/ actions (calls r) = [Call_PioDCOStop]).
Proof.
  intros Hc Htx Hskip r due. subst r.
  rewrite (scheduler_run m a c tx verbose Hc Htx).
  assert (Hdue : due <-> sight m c tx = SlotQualifying /\ itx_trigger m = 0).
  { unfold due. rewrite sight_SlotQualifying, eligible_of_iff.
    unfold fix_received, qualifying_slot. tauto. }
  split; [rewrite poll_cases_triggered; symmetry; exact Hdue|].
  rewrite Hdue. rewrite <- (truth_false (itx_trigger m)).
  change 1100000 with (1100 * kHz).
  unfold poll_cases.
  destruct (sight m c tx) eqn:Es; cbn;
    try (repeat split; intros; intuition congruence).
  destruct (CInt.truth (itx_trigger m)); cbn;
    [repeat split; intros; intuition congruence|].
  destruct (Z.ltb_spec (1100 * kHz) (_u32_dialfreqhz tx)); cbn;
    repeat split; intros; try reflexivity; try lia; exfalso; tauto.
Qed.

(** C8: a poll that triggers a transmission makes its keying calls in one
    order: the encoder, the oscillator start, the 100 ms settle delay, and
    then the handoff of [WSPRbeaconSendPacket]. The handoff is the last
    call; when the dial frequency is not above 1,100,000 Hz the poll aborts
    in [WSPRbeaconSendPacket], after the delay, with the handoff not made. *)
Theorem keying_order (m : Machine) (a : nat) (c : WSPRbeaconContext)
        (tx : TxChannelContext) (verbose : Z) :
  heap m !! a = Some c -> _pTX c = Some tx ->
  let r := WSPRbeaconTxScheduler (Some a) verbose m in
  triggered r = true ->
  (1100000 < _u32_dialfreqhz tx
   /\ outcome r = Returned 0
   /\ actions (calls r)
      = [Call_wspr_encode (_pu8_callsign c) (_pu8_locator c) (_u8_txpower c);
         Call_PioDCOStart; Call_sleep_ms 100; Call_memcpy WSPR_SYMBOL_COUNT])
  \/ (_u32_dialfreqhz tx <= 1100000
      /\ outcome r = Aborted
      /\ actions (calls r)
         = [Call_wspr_encode (_pu8_callsign c) (_pu8_locator c) (_u8_txpower c);
            Call_PioDCOStart; Call_sleep_ms 100]).
Proof.
  intros Hc Htx r. subst r.
  rewrite (scheduler_run m a c tx verbose Hc Htx).
  unfold poll_cases.
  destruct (sight m c tx); cbn; try discriminate.
  destruct (CInt.truth (itx_trigger m)); cbn; [discriminate|].
  change 1100000 with (1100 * kHz).
  destruct (Z.ltb_spec (1100 * kHz) (_u32_dialfreqhz tx)); cbn; intros _;
    [left|right]; auto.
Qed.

End Trigger.

(** ** The transmit handoff *)

Section Handoff.

Context {platform : Platform}.

(** C5, as the code has it: [WSPRbeaconSendPacket] aborts, with nothing
    changed, when the dial frequency is at or below 1,100,000 Hz. Above it
    the function returns 0, the channel's buffer receives the encoded
    symbols, and [_ix_input] becomes the sum of its old value and the symbol
    count in the arithmetic of the field's type, that is, reduced modulo the
    range of that type. The index advances by exactly the symbol count, and
    does not decrease, when that sum stays inside the range. *)
Theorem SendPacket_spec (m : Machine) (a : nat) (c : WSPRbeaconContext)
        (tx : TxChannelContext) :
  heap m !! a = Some c -> _pTX c = Some tx ->
  let r := WSPRbeaconSendPacket (Some a) m in
  (_u32_dialfreqhz tx <= 1100000 ->
   outcome r = Aborted /\ final r = m /\ calls r = [])
  /\ (1100000 < _u32_dialfreqhz tx ->
      outcome r = Returned 0
      /\ exists tx',
          tx_of (final r) a = Some tx'
          /\ _pbyte_buffer tx'
             = memcpy (_pbyte_buffer tx) (_pu8_outbuf c) WSPR_SYMBOL_COUNT
          /\ _ix_input tx'
             = (_ix_input tx + WSPR_SYMBOL_COUNT) mod ix_input_range
          /\ (0 <= _ix_input tx -> 0 <= WSPR_SYMBOL_COUNT ->
              _ix_input tx + WSPR_SYMBOL_COUNT < ix_input_range ->
              _ix_input tx' = _ix_input tx + WSPR_SYMBOL_COUNT
              /\ _ix_input tx <= _ix_input tx')).
Proof.
  intros Hc Htx r. subst r.
  rewrite (SendPacket_run m a c tx Hc Htx).
  change 1100000 with (1100 * kHz).
  destruct (Z.ltb_spec (1100 * kHz) (_u32_dialfreqhz tx)) as [Hf|Hf]; cbn.
  - split; [lia|]. intros _. split; [reflexivity|].
    exists (handed_off (_pu8_outbuf c) tx).
    unfold tx_of; cbn.
    rewrite list_lookup_insert_eq by (eapply lookup_lt_Some; eassumption).
    cbn. repeat split; try reflexivity.
    + rewrite Z.mod_small; lia.
    + rewrite Z.mod_small; lia.
  - split; [auto|]. lia.
Qed.

(** In an index type of any range, a handoff from a high enough index
    wraps around and leaves the index lower than it was. *)
Lemma SendPacket_wraps_in_any_range (m : Machine) (a : nat) (c : WSPRbeaconContext)
      (tx : TxChannelContext) :
  heap m !! a = Some c -> _pTX c = Some tx ->
  1100000 < _u32_dialfreqhz tx ->
  0 < WSPR_SYMBOL_COUNT < ix_input_range ->
  ix_input_range - WSPR_SYMBOL_COUNT <= _ix_input tx < ix_input_range ->
  exists tx',
    tx_of (final (WSPRbeaconSendPacket (Some a) m)) a = Some tx'
    /\ _ix_input tx' = _ix_input tx + WSPR_SYMBOL_COUNT - ix_input_range
    /\ _ix_input tx' < _ix_input tx.
Proof.
  intros Hc Htx Hf Hn Hix.
  rewrite (SendPacket_run m a c tx Hc Htx).
  change 1100000 with (1100 * kHz) in Hf.
  apply Z.ltb_lt in Hf. rewrite Hf.
  exists (handed_off (_pu8_outbuf c) tx).
  unfold tx_of; cbn.
  rewrite list_lookup_insert_eq by (eapply lookup_lt_Some; eassumption).
  cbn.
  assert (E : (_ix_input tx + WSPR_SYMBOL_COUNT) mod ix_input_range
              = _ix_input tx + WSPR_SYMBOL_COUNT - ix_input_range).
  { symmetry. apply Z.mod_unique_pos with (q := 1); lia. }
  rewrite E. repeat split; lia.
Qed.

End Handoff.

(** ** The latch *)

Section Latch.

Context {platform : Platform}.

Lemma poll_cases_triggered_latch (m : Machine) (a : nat) (c : WSPRbeaconContext)
      (tx : TxChannelContext) :
  triggered (poll_cases m a c tx) = true ->
  itx_trigger (final (poll_cases m a c tx)) = 1.
Proof.
  unfold poll_cases.
  destruct (sight m c tx); cbn; try discriminate.
  destruct (CInt.truth (itx_trigger m)); cbn; [discriminate|].
  now destruct (1100 * kHz <? _u32_dialfreqhz tx).
Qed.

(** With the latch set, no poll triggers. *)
Lemma poll_cases_latched (m : Machine) (a : nat) (c : WSPRbeaconContext)
      (tx : TxChannelContext) :
  itx_trigger m <> 0 -> triggered (poll_cases m a c tx) = false.
Proof.
  intros Hl.
  destruct (triggered (poll_cases m a c tx)) eqn:E; [|reflexivity].
  apply poll_cases_triggered in E. tauto.
Qed.

(** C9, as the code has it: the latch is the one [static int itx_trigger]
    of the scheduler function; it is no part of a context, and the poll of
    every context reads and writes it. After a poll of one context has
    triggered, the latch is 1, and as long as the latch has that value the
    poll of any valid context with a nonzero skip factor, whatever that
    context and the rest of the memory hold, triggers nothing. *)
Theorem latch_is_shared (m : Machine) (a : nat) (ca : WSPRbeaconContext)
        (txa : TxChannelContext) (verbose : Z) :
  heap m !! a = Some ca -> _pTX ca = Some txa ->
  _u8_tx_slot_skip (_txSched ca) <> 0 ->
  let r := WSPRbeaconTxScheduler (Some a) verbose m in
  triggered r = true ->
  itx_trigger (final r) = 1
  /\ forall (m' : Machine) (b : nat) (cb : WSPRbeaconContext)
            (txb : TxChannelContext) (verbose' : Z),
      itx_trigger m' = itx_trigger (final r) ->
      heap m' !! b = Some cb -> _pTX cb = Some txb ->
      _u8_tx_slot_skip (_txSched cb) <> 0 ->
      let r' := WSPRbeaconTxScheduler (Some b) verbose' m' in
      triggered r' = false
      /\ outcome r' <> Undefined
      /\ (itx_trigger (final r') = 1 \/ itx_trigger (final r') = 0).
Proof.
  intros Ha Htxa Hskipa r. subst r.
  rewrite (scheduler_run m a ca txa verbose Ha Htxa).
  intros Ht. apply poll_cases_triggered_latch in Ht.
  split; [exact Ht|].
  intros m' b cb txb verbose' Hl Hb Htxb Hskipb r'. subst r'.
  rewrite Ht in Hl.
  rewrite (scheduler_run m' b cb txb verbose' Hb Htxb).
  split; [apply poll_cases_latched; lia|].
  unfold poll_cases.
  destruct (sight m' cb txb) eqn:Es; cbn; try (split; [discriminate|auto]).
  - apply sight_SkipZero in Es. tauto.
  - assert (El : CInt.truth (itx_trigger m') = true) by (apply truth_true; lia).
    rewrite El. cbn. split; [discriminate|auto].
Qed.

End Latch.

(** ** The latch over the polling loop *)

Section Loop.

Context {platform : Platform}.

Lemma tick_sight_Some (t : Tick) (s : Sight) :
  tick_sight t = Some s ->
  exists c tx,
    tick_heap t !! tick_pctx t = Some c /\ _pTX c = Some tx
    /\ forall latch, sight (tick_machine latch t) c tx = s.
Proof.
  unfold tick_sight.
  destruct (tick_heap t !! tick_pctx t) as [c|] eqn:Hc; [|discriminate].
  destruct (_pTX c) as [tx|] eqn:Htx; [|discriminate].
  intros [= <-]. exists c, tx. split; [reflexivity|]. split; [exact Htx|].
  intros latch. reflexivity.
Qed.

Lemma poll_run (latch : Z) (t : Tick) (c : WSPRbeaconContext) (tx : TxChannelContext) :
  tick_heap t !! tick_pctx t = Some c -> _pTX c = Some tx ->
  poll latch t = poll_cases (tick_machine latch t) (tick_pctx t) c tx.
Proof. intros Hc Htx. unfold poll. now apply scheduler_run. Qed.

(** With the latch set, a poll that sees no slot other than a qualifying
    one returns, triggers nothing and leaves the latch set. *)
Lemma poll_holds_latch (latch : Z) (t : Tick) :
  latch <> 0 -> no_other_slot t = true ->
  (exists status, outcome (poll latch t) = Returned status)
  /\ triggered (poll latch t) = false
  /\ itx_trigger (final (poll latch t)) = latch.
Proof.
  intros Hl Hn. unfold no_other_slot in Hn.
  destruct (tick_sight t) as [s|] eqn:Es; [|discriminate].
  destruct (tick_sight_Some t s Es) as (c & tx & Hc & Htx & Hs).
  rewrite (poll_run latch t c tx Hc Htx).
  split; [|split].
  - unfold poll_cases. rewrite (Hs latch).
    destruct s; try discriminate; cbn; eauto.
    apply truth_true in Hl. rewrite Hl. eauto.
  - now apply poll_cases_latched.
  - unfold poll_cases. rewrite (Hs latch).
    destruct s; try discriminate; cbn; auto.
    apply truth_true in Hl. now rewrite Hl.
Qed.

Lemma polls_hold_latch (latch : Z) (inside rest : list Tick) :
  latch <> 0 -> forallb no_other_slot inside = true ->
  polls latch (inside ++ rest) = map (poll latch) inside ++ polls latch rest
  /\ Forall (fun r => triggered r = false /\ itx_trigger (final r) = latch)
            (map (poll latch) inside).
Proof.
  intros Hl. induction inside as [|t ts IH]; cbn [forallb]; intros Hall.
  - split; [reflexivity|constructor].
  - apply andb_true_iff in Hall as [Ht Hts].
    destruct (poll_holds_latch latch t Hl Ht) as ([status Ho] & Hq & Hk).
    destruct (IH Hts) as [IH1 IH2].
    split.
    + cbn [app polls map]. rewrite Ho, Hk, IH1. reflexivity.
    + cbn [map]. constructor; [split; assumption|exact IH2].
Qed.

(** A poll that observes a non-qualifying slot returns with the latch
    cleared, whatever the latch was. *)
Lemma poll_clears_latch (latch : Z) (t : Tick) :
  tick_sight t = Some SlotOther ->
  outcome (poll latch t) = Returned 0
  /\ triggered (poll latch t) = false
  /\ itx_trigger (final (poll latch t)) = 0.
Proof.
  intros Es.
  destruct (tick_sight_Some t _ Es) as (c & tx & Hc & Htx & Hs).
  rewrite (poll_run latch t c tx Hc Htx).
  unfold poll_cases. rewrite (Hs latch). cbn. auto.
Qed.

(** A poll that observes a qualifying slot with the latch clear triggers
    and sets the latch. *)
Lemma poll_fires (t : Tick) :
  tick_sight t = Some SlotQualifying ->
  triggered (poll 0 t) = true /\ itx_trigger (final (poll 0 t)) = 1.
Proof.
  intros Es.
  destruct (tick_sight_Some t _ Es) as (c & tx & Hc & Htx & Hs).
  rewrite (poll_run 0 t c tx Hc Htx).
  assert (Ht : triggered (poll_cases (tick_machine 0 t) (tick_pctx t) c tx) = true).
  { apply poll_cases_triggered. split; [apply Hs|reflexivity]. }
  split; [exact Ht|]. now apply poll_cases_triggered_latch.
Qed.

(** C3: with the latch set, the polls made inside the qualifying slot (and
    those that see no slot at all) all return without triggering and leave
    the latch as it is; the first poll that observes a non-qualifying slot
    clears it; the poll that then observes a qualifying slot triggers again
    and sets the latch to 1. *)
Theorem latch_one_shot_and_rearm (latch : Z) (inside : list Tick) (gap next : Tick) :
  latch <> 0 ->
  forallb no_other_slot inside = true ->
  tick_sight gap = Some SlotOther ->
  tick_sight next = Some SlotQualifying ->
  exists r_gap r_next,
    polls latch (inside ++ [gap; next])
    = map (poll latch) inside ++ [r_gap; r_next]
    /\ Forall (fun r => triggered r = false /\ itx_trigger (final r) = latch)
              (map (poll latch) inside)
    /\ r_gap = poll latch gap
    /\ triggered r_gap = false /\ itx_trigger (final r_gap) = 0
    /\ r_next = poll 0 next
    /\ triggered r_next = true /\ itx_trigger (final r_next) = 1.
Proof.
  intros Hl Hin Hgap Hnext.
  destruct (polls_hold_latch latch inside [gap; next] Hl Hin) as [Hp Hall].
  destruct (poll_clears_latch latch gap Hgap) as (Hgo & Hgt & Hgl).
  destruct (poll_fires next Hnext) as [Hnt Hnl].
  exists (poll latch gap), (poll 0 next).
  repeat split; try assumption.
  rewrite Hp. f_equal. cbn [polls]. rewrite Hgo, Hgl.
  now destruct (outcome (poll 0 next)).
Qed.

End Loop.

(** ** Setting the dial frequency *)

Section DialFreq.

Context {platform : Platform}.

Lemma SetDialFreq_run (m : Machine) (a : nat) (c : WSPRbeaconContext)
      (tx : TxChannelContext) (freq_hz : Z) :
  heap m !! a = Some c -> _pTX c = Some tx ->
  WSPRbeaconSetDialFreq (Some a) freq_hz m
  = mkRun (Returned tt)
      (with_heap (<[a := set_pTX (set_dialfreq freq_hz tx) c]> (heap m)) m) [].
Proof.
  intros Hc Htx. unfold WSPRbeaconSetDialFreq, bind, load; cbn.
  rewrite Hc; cbn. now rewrite Htx.
Qed.

(** X1: [WSPRbeaconSetDialFreq] on a valid context returns without a call
    to a collaborator and writes the dial frequency only: the channel keeps
    its index, buffer, oscillator and pin, the context keeps its identity,
    output buffer and schedule, and the latch, the timer and every other
    context are as before. *)
Theorem SetDialFreq_writes_frequency_only (m : Machine) (a : nat)
        (c : WSPRbeaconContext) (tx : TxChannelContext) (freq_hz : Z) :
  heap m !! a = Some c -> _pTX c = Some tx ->
  let r := WSPRbeaconSetDialFreq (Some a) freq_hz m in
  outcome r = Returned tt /\ calls r = []
  /\ itx_trigger (final r) = itx_trigger m
  /\ uptime64 (final r) = uptime64 m
  /\ (forall b, b <> a -> heap (final r) !! b = heap m !! b)
  /\ exists c' tx',
      heap (final r) !! a = Some c' /\ _pTX c' = Some tx'
      /\ _u32_dialfreqhz tx' = freq_hz
      /\ _ix_input tx' = _ix_input tx
      /\ _pbyte_buffer tx' = _pbyte_buffer tx
      /\ _p_oscillator tx' = _p_oscillator tx
      /\ _i_tx_gpio tx' = _i_tx_gpio tx
      /\ _pu8_callsign c' = _pu8_callsign c
      /\ _pu8_locator c' = _pu8_locator c
      /\ _u8_txpower c' = _u8_txpower c
      /\ _pu8_outbuf c' = _pu8_outbuf c
      /\ _txSched c' = _txSched c.
Proof.
  intros Hc Htx r. subst r.
  rewrite (SetDialFreq_run m a c tx freq_hz Hc Htx). cbn.
  repeat split.
  - intros b Hb. now apply list_lookup_insert_ne.
  - exists (set_pTX (set_dialfreq freq_hz tx) c), (set_dialfreq freq_hz tx).
    rewrite list_lookup_insert_eq by (eapply lookup_lt_Some; eassumption).
    cbn. repeat split.
Qed.

(** X2: whatever the dial frequency was, after [WSPRbeaconSetDialFreq] the
    handoff returns 0 exactly when the frequency just set is above
    1,100,000 Hz, and aborts otherwise. *)
Theorem SetDialFreq_decides_SendPacket (m : Machine) (a : nat)
        (c : WSPRbeaconContext) (tx : TxChannelContext) (freq_hz : Z) :
  heap m !! a = Some c -> _pTX c = Some tx ->
  let r := (WSPRbeaconSetDialFreq (Some a) freq_hz ;;
            WSPRbeaconSendPacket (Some a)) m in
  (1100000 < freq_hz -> outcome r = Returned 0)
  /\ (freq_hz <= 1100000 -> outcome r = Aborted /\ calls r = []).
Proof.
  intros Hc Htx r. subst r. unfold bind.
  rewrite (SetDialFreq_run m a c tx freq_hz Hc Htx).
  erewrite (SendPacket_run _ a (set_pTX (set_dialfreq freq_hz tx) c)
              (set_dialfreq freq_hz tx));
    [|cbn; apply list_lookup_insert_eq; eapply lookup_lt_Some; eassumption
     |reflexivity].
  cbn [_u32_dialfreqhz set_dialfreq]. change 1100000 with (1100 * kHz).
  destruct (Z.ltb_spec (1100 * kHz) freq_hz); cbn; split; intros; auto; lia.
Qed.

(** X3: on a context whose channel pointer is NULL, the handoff fails its
    assertion and aborts with the machine as it was, and
    [WSPRbeaconCreatePacket], which does not use the channel, returns 0.
    [WSPRbeaconSetDialFreq] and the scheduler have no such assertion: they
    follow the NULL pointer, which is undefined behaviour. *)
Theorem functions_on_null_channel (m : Machine) (a : nat)
        (c : WSPRbeaconContext) (freq_hz verbose : Z) :
  heap m !! a = Some c -> _pTX c = None ->
  WSPRbeaconSendPacket (Some a) m = mkRun Aborted m []
  /\ outcome (WSPRbeaconCreatePacket (Some a) m) = Returned 0
  /\ outcome (WSPRbeaconSetDialFreq (Some a) freq_hz m) = Undefined
  /\ outcome (WSPRbeaconTxScheduler (Some a) verbose m) = Undefined.
Proof.
  intros Hc Htx. repeat split.
  - unfold WSPRbeaconSendPacket, bind, load; cbn. rewrite Hc; cbn. now rewrite Htx.
  - now rewrite (CreatePacket_run m a c Hc).
  - unfold WSPRbeaconSetDialFreq, bind, load; cbn. rewrite Hc; cbn. now rewrite Htx.
  - unfold WSPRbeaconTxScheduler, bind, load, GetUptime64; cbn.
    rewrite Hc; cbn. now rewrite Htx.
Qed.

End DialFreq.

(** ** What a poll leaves behind *)

Section Effects.

Context {platform : Platform}.

Lemma memcpy_take (dst src : list Z) (n : Z) :
  (Z.to_nat n <= length src)%nat ->
  take (Z.to_nat n) (memcpy dst src n) = take (Z.to_nat n) src.
Proof.
  intros Hn. unfold memcpy.
  rewrite take_app_le by (rewrite length_take; lia).
  rewrite take_take. f_equal. lia.
Qed.

Lemma memcpy_drop (dst src : list Z) (n : Z) :
  (Z.to_nat n <= length src)%nat ->
  drop (Z.to_nat n) (memcpy dst src n) = drop (Z.to_nat n) dst.
Proof.
  intros Hn. unfold memcpy.
  rewrite drop_app_length'; [reflexivity|]. rewrite length_take. lia.
Qed.

Lemma memcpy_length (dst src : list Z) (n : Z) :
  (Z.to_nat n <= length src)%nat -> (Z.to_nat n <= length dst)%nat ->
  length (memcpy dst src n) = length dst.
Proof.
  intros Hs Hd. unfold memcpy.
  rewrite length_app, length_take, length_drop. lia.
Qed.

(** X4: a poll that triggers with a dial frequency above 1,100,000 Hz
    delivers the packet: when the encoder's output has at least the symbol
    count of cells, the channel's buffer then starts with the first symbol
    count cells of what the encoder produced from the context's callsign,
    locator and power, and keeps its cells from there on; the index has
    the symbol count added in its type, the oscillator is running, the
    latch is 1, and the dial frequency is as before. *)
Theorem triggering_poll_delivers_packet (m : Machine) (a : nat)
        (c : WSPRbeaconContext) (tx : TxChannelContext) (verbose : Z) :
  heap m !! a = Some c -> _pTX c = Some tx ->
  let r := WSPRbeaconTxScheduler (Some a) verbose m in
  let packet := wspr_encode (_pu8_callsign c) (_pu8_locator c) (_u8_txpower c)
                            (_pu8_outbuf c) in
  triggered r = true ->
  1100000 < _u32_dialfreqhz tx ->
  (Z.to_nat WSPR_SYMBOL_COUNT <= length packet)%nat ->
  outcome r = Returned 0
  /\ itx_trigger (final r) = 1
  /\ exists c' tx',
      heap (final r) !! a = Some c' /\ _pTX c' = Some tx'
      /\ _pu8_outbuf c' = packet
      /\ take (Z.to_nat WSPR_SYMBOL_COUNT) (_pbyte_buffer tx')
         = take (Z.to_nat WSPR_SYMBOL_COUNT) packet
      /\ drop (Z.to_nat WSPR_SYMBOL_COUNT) (_pbyte_buffer tx')
         = drop (Z.to_nat WSPR_SYMBOL_COUNT) (_pbyte_buffer tx)
      /\ _ix_input tx' = (_ix_input tx + WSPR_SYMBOL_COUNT) mod ix_input_range
      /\ dco_running (_p_oscillator tx') = true
      /\ _u32_dialfreqhz tx' = _u32_dialfreqhz tx.
Proof.
  intros Hc Htx r packet. subst r packet.
  rewrite (scheduler_run m a c tx verbose Hc Htx).
  unfold poll_cases.
  destruct (sight m c tx); cbn; try discriminate.
  destruct (CInt.truth (itx_trigger m)); cbn; [discriminate|].
  change 1100000 with (1100 * kHz).
  destruct (Z.ltb_spec (1100 * kHz) (_u32_dialfreqhz tx)); cbn; [|lia].
  intros _ _ Hlen. split; [reflexivity|]. split; [reflexivity|].
  exists (fired c tx),
         (handed_off (_pu8_outbuf (encoded c)) (set_running true tx)).
  rewrite list_lookup_insert_eq by (eapply lookup_lt_Some; eassumption).
  cbn. repeat split.
  - now apply memcpy_take.
  - now apply memcpy_drop.
Qed.

(** X5: a poll that triggers with a dial frequency at or below
    1,100,000 Hz aborts half-way: the latch is already 1, the output buffer
    already holds the encoder's output and the oscillator is already
    running, while the channel's buffer and index are untouched. *)
Theorem aborted_trigger_leaves_oscillator_running (m : Machine) (a : nat)
        (c : WSPRbeaconContext) (tx : TxChannelContext) (verbose : Z) :
  heap m !! a = Some c -> _pTX c = Some tx ->
  let r := WSPRbeaconTxScheduler (Some a) verbose m in
  triggered r = true ->
  _u32_dialfreqhz tx <= 1100000 ->
  outcome r = Aborted
  /\ itx_trigger (final r) = 1
  /\ exists c' tx',
      heap (final r) !! a = Some c' /\ _pTX c' = Some tx'
      /\ _pu8_outbuf c'
         = wspr_encode (_pu8_callsign c) (_pu8_locator c) (_u8_txpower c)
                       (_pu8_outbuf c)
      /\ dco_running (_p_oscillator tx') = true
      /\ _pbyte_buffer tx' = _pbyte_buffer tx
      /\ _ix_input tx' = _ix_input tx.
Proof.
  intros Hc Htx r. subst r.
  rewrite (scheduler_run m a c tx verbose Hc Htx).
  unfold poll_cases.
  destruct (sight m c tx); cbn; try discriminate.
  destruct (CInt.truth (itx_trigger m)); cbn; [discriminate|].
  change 1100000 with (1100 * kHz).
  destruct (Z.ltb_spec (1100 * kHz) (_u32_dialfreqhz tx)); cbn; [lia|].
  intros _ _. split; [reflexivity|]. split; [reflexivity|].
  exists (keyed c tx), (set_running true tx).
  rewrite list_lookup_insert_eq by (eapply lookup_lt_Some; eassumption).
  cbn. repeat split.
Qed.

(** X6: every poll that finds a fix, an eligible reference and a slot
    index that is not a multiple of the (nonzero) skip factor calls
    [PioDCOStop], once, whatever the latch and the oscillator were: it
    returns 0 with the latch 0 and the oscillator stopped, and leaves the
    channel's buffer, index and dial frequency and the output buffer as
    they were. *)
Theorem idle_slot_poll_stops_oscillator (m : Machine) (a : nat)
        (c : WSPRbeaconContext) (tx : TxChannelContext) (verbose : Z) :
  heap m !! a = Some c -> _pTX c = Some tx ->
  fix_received tx -> reference_eligible m c tx ->
  _u8_tx_slot_skip (_txSched c) <> 0 ->
  ~ qualifying_slot m c tx ->
  let r := WSPRbeaconTxScheduler (Some a) verbose m in
  outcome r = Returned 0
  /\ actions (calls r) = [Call_PioDCOStop]
  /\ itx_trigger (final r) = 0
  /\ exists c' tx',
      heap (final r) !! a = Some c' /\ _pTX c' = Some tx'
      /\ dco_running (_p_oscillator tx') = false
      /\ _pbyte_buffer tx' = _pbyte_buffer tx
      /\ _ix_input tx' = _ix_input tx
      /\ _u32_dialfreqhz tx' = _u32_dialfreqhz tx
      /\ _pu8_outbuf c' = _pu8_outbuf c.
Proof.
  intros Hc Htx Hfix Hel Hskip Hq r. subst r.
  rewrite (scheduler_run m a c tx verbose Hc Htx).
  unfold poll_cases.
  rewrite (proj2 (sight_SlotOther m c tx)
             (conj Hfix (conj (proj2 (eligible_of_iff m c tx) Hel)
                              (conj Hskip Hq)))).
  cbn. repeat split.
  exists (idled c tx), (set_running false tx).
  rewrite list_lookup_insert_eq by (eapply lookup_lt_Some; eassumption).
  cbn. repeat split.
Qed.

(** X7: no poll of a valid context with a nonzero skip factor, whether it
    returns or aborts, changes the callsign, the locator, the power, the
    schedule, the dial frequency, the pin or the GPS time data of that
    context. *)
Theorem poll_keeps_configuration (m : Machine) (a : nat)
        (c : WSPRbeaconContext) (tx : TxChannelContext) (verbose : Z) :
  heap m !! a = Some c -> _pTX c = Some tx ->
  _u8_tx_slot_skip (_txSched c) <> 0 ->
  let r := WSPRbeaconTxScheduler (Some a) verbose m in
  outcome r <> Undefined
  /\ exists c' tx',
      heap (final r) !! a = Some c' /\ _pTX c' = Some tx'
      /\ _pu8_callsign c' = _pu8_callsign c
      /\ _pu8_locator c' = _pu8_locator c
      /\ _u8_txpower c' = _u8_txpower c
      /\ _txSched c' = _txSched c
      /\ _u32_dialfreqhz tx' = _u32_dialfreqhz tx
      /\ _i_tx_gpio tx' = _i_tx_gpio tx
      /\ time_data_of tx' = time_data_of tx.
Proof.
  intros Hc Htx Hskip r. subst r.
  rewrite (scheduler_run m a c tx verbose Hc Htx).
  assert (Hlt : (a < length (heap m))%nat) by (eapply lookup_lt_Some; eassumption).
  unfold poll_cases.
  destruct (sight m c tx) eqn:Es; cbn;
    try (split; [discriminate|]; exists c, tx; now repeat split).
  - apply sight_SkipZero in Es. tauto.
  - destruct (CInt.truth (itx_trigger m)); cbn;
      [split; [discriminate|]; exists c, tx; now repeat split|].
    destruct (1100 * kHz <? _u32_dialfreqhz tx); cbn;
      (split; [discriminate|]);
      [exists (fired c tx),
              (handed_off (_pu8_outbuf (encoded c)) (set_running true tx))
      |exists (keyed c tx), (set_running true tx)];
      rewrite list_lookup_insert_eq by exact Hlt; cbn; repeat split.
  - split; [discriminate|].
    exists (idled c tx), (set_running false tx).
    rewrite list_lookup_insert_eq by exact Hlt. cbn. repeat split.
Qed.

(** X18: [WSPRbeaconCreatePacket] on a valid context, with or without a
    channel, returns 0 after one call, to the encoder, with the callsign,
    locator and power of that context; it writes the output buffer only:
    the channel (buffer, index, oscillator, dial frequency), the identity,
    the schedule, the latch and every other context are as before. *)
Theorem CreatePacket_writes_outbuf_only (m : Machine) (a : nat)
        (c : WSPRbeaconContext) :
  heap m !! a = Some c ->
  let r := WSPRbeaconCreatePacket (Some a) m in
  outcome r = Returned 0
  /\ calls r = [Call_wspr_encode (_pu8_callsign c) (_pu8_locator c) (_u8_txpower c)]
  /\ itx_trigger (final r) = itx_trigger m
  /\ (forall b, b <> a -> heap (final r) !! b = heap m !! b)
  /\ exists c',
      heap (final r) !! a = Some c'
      /\ _pu8_outbuf c'
         = wspr_encode (_pu8_callsign c) (_pu8_locator c) (_u8_txpower c)
                       (_pu8_outbuf c)
      /\ _pTX c' = _pTX c
      /\ _pu8_callsign c' = _pu8_callsign c
      /\ _pu8_locator c' = _pu8_locator c
      /\ _u8_txpower c' = _u8_txpower c
      /\ _txSched c' = _txSched c.
Proof.
  intros Hc r. subst r. rewrite (CreatePacket_run m a c Hc). cbn.
  repeat split.
  - intros b Hb. now apply list_lookup_insert_ne.
  - exists (encoded c).
    rewrite list_lookup_insert_eq by (eapply lookup_lt_Some; eassumption).
    repeat split.
Qed.

(** X19: a handoff above the frequency floor always copies to the start of
    the channel's buffer, wherever the index stands, and neither starts nor
    stops the oscillator: the oscillator, the dial frequency, the output
    buffer, the latch and every other context are as before, and when the
    output buffer and the channel's buffer have at least the symbol count
    of cells, the channel's buffer keeps its length and its cells from the
    symbol count on. *)
Theorem SendPacket_copies_to_buffer_start (m : Machine) (a : nat)
        (c : WSPRbeaconContext) (tx : TxChannelContext) :
  heap m !! a = Some c -> _pTX c = Some tx ->
  1100000 < _u32_dialfreqhz tx ->
  (Z.to_nat WSPR_SYMBOL_COUNT <= length (_pu8_outbuf c))%nat ->
  (Z.to_nat WSPR_SYMBOL_COUNT <= length (_pbyte_buffer tx))%nat ->
  let r := WSPRbeaconSendPacket (Some a) m in
  calls r = [Call_memcpy WSPR_SYMBOL_COUNT]
  /\ itx_trigger (final r) = itx_trigger m
  /\ (forall b, b <> a -> heap (final r) !! b = heap m !! b)
  /\ exists c' tx',
      heap (final r) !! a = Some c' /\ _pTX c' = Some tx'
      /\ take (Z.to_nat WSPR_SYMBOL_COUNT) (_pbyte_buffer tx')
         = take (Z.to_nat WSPR_SYMBOL_COUNT) (_pu8_outbuf c)
      /\ drop (Z.to_nat WSPR_SYMBOL_COUNT) (_pbyte_buffer tx')
         = drop (Z.to_nat WSPR_SYMBOL_COUNT) (_pbyte_buffer tx)
      /\ length (_pbyte_buffer tx') = length (_pbyte_buffer tx)
      /\ _p_oscillator tx' = _p_oscillator tx
      /\ _u32_dialfreqhz tx' = _u32_dialfreqhz tx
      /\ _pu8_outbuf c' = _pu8_outbuf c.
Proof.
  intros Hc Htx Hf Hs Hd r. subst r.
  rewrite (SendPacket_run m a c tx Hc Htx).
  change 1100000 with (1100 * kHz) in Hf. apply Z.ltb_lt in Hf. rewrite Hf.
  cbn. repeat split.
  - intros b Hb. now apply list_lookup_insert_ne.
  - exists (set_pTX (handed_off (_pu8_outbuf c) tx) c),
           (handed_off (_pu8_outbuf c) tx).
    rewrite list_lookup_insert_eq by (eapply lookup_lt_Some; eassumption).
    cbn. repeat split.
    + now apply memcpy_take.
    + now apply memcpy_drop.
    + now apply memcpy_length.
Qed.

End Effects.

(** ** Handoffs in a row *)

Section Handoffs.

Context {platform : Platform}.

(** X8: [n] handoffs in a row at a dial frequency above 1,100,000 Hz all
    return 0, copy [n] times, and leave the index at its old value plus
    [n] times the symbol count, reduced modulo the range of its type; the
    dial frequency and the oscillator are as before. *)
Theorem send_packets_index (n : nat) (m : Machine) (a : nat)
        (c : WSPRbeaconContext) (tx : TxChannelContext) :
  heap m !! a = Some c -> _pTX c = Some tx ->
  1100000 < _u32_dialfreqhz tx ->
  0 <= _ix_input tx < ix_input_range ->
  let r := send_packets n (Some a) m in
  outcome r = Returned 0
  /\ calls r = repeat (Call_memcpy WSPR_SYMBOL_COUNT) n
  /\ itx_trigger (final r) = itx_trigger m
  /\ exists c' tx',
      heap (final r) !! a = Some c' /\ _pTX c' = Some tx'
      /\ _ix_input tx'
         = (_ix_input tx + Z.of_nat n * WSPR_SYMBOL_COUNT) mod ix_input_range
      /\ _u32_dialfreqhz tx' = _u32_dialfreqhz tx
      /\ _p_oscillator tx' = _p_oscillator tx.
Proof.
  revert m c tx. induction n as [|k IH]; intros m c tx Hc Htx Hf Hix r; subst r.
  - cbn. repeat split. exists c, tx. repeat split; try assumption.
    rewrite Z.add_0_r. symmetry. now apply Z.mod_small.
  - cbn [send_packets]. unfold bind.
    rewrite (SendPacket_run m a c tx Hc Htx).
    assert (Hf' : (1100 * kHz <? _u32_dialfreqhz tx) = true)
      by (apply Z.ltb_lt; exact Hf).
    rewrite Hf'.
    set (tx1 := handed_off (_pu8_outbuf c) tx).
    set (m1 := with_heap (<[a := set_pTX tx1 c]> (heap m)) m).
    assert (Hc1 : heap m1 !! a = Some (set_pTX tx1 c)).
    { cbn. apply list_lookup_insert_eq. eapply lookup_lt_Some; eassumption. }
    assert (Hix1 : 0 <= _ix_input tx1 < ix_input_range).
    { cbn. apply Z.mod_pos_bound. lia. }
    destruct (IH m1 (set_pTX tx1 c) tx1 Hc1 eq_refl Hf Hix1)
      as (Ho & Hcalls & Hl & c' & tx' & Hc' & Htx' & Hi & Hfr & Hosc).
    destruct (send_packets k (Some a) m1) as [o m2 cs2]; cbn in *.
    subst o cs2. repeat split; try assumption.
    exists c', tx'. repeat split; try assumption.
    rewrite Hi. rewrite Zplus_mod_idemp_l. f_equal. lia.
Qed.

End Handoffs.

(** ** Schedules *)

Section Schedules.

Context {platform : Platform}.

Lemma every_slot_tick_no_other_slot (t : Tick) :
  every_slot_tick t = true -> no_other_slot t = true.
Proof.
  unfold every_slot_tick, tick_skip, no_other_slot, tick_sight.
  destruct (tick_heap t !! tick_pctx t) as [c|]; [|discriminate].
  destruct (_pTX c) as [tx|]; [|discriminate].
  intros Hk. apply Z.eqb_eq in Hk.
  destruct (sight (tick_machine 0 t) c tx) eqn:Es; try reflexivity.
  - apply sight_SkipZero in Es. lia.
  - apply sight_SlotOther in Es. destruct Es as (_ & _ & _ & Hmod).
    rewrite Hk, Z.mod_1_r in Hmod. congruence.
Qed.

(** X9: with a skip factor of 1 every slot qualifies, so no poll clears
    the latch: once the latch is set, however many polls follow and
    whatever the time and the GPS data are, every poll returns, none
    triggers a transmission, none calls [PioDCOStop], and the latch stays
    as it is. *)
Theorem every_slot_schedule_never_rearms (latch : Z) (ts : list Tick) :
  latch <> 0 ->
  forallb every_slot_tick ts = true ->
  polls latch ts = map (poll latch) ts
  /\ Forall (fun r => triggered r = false /\ itx_trigger (final r) = latch)
            (polls latch ts).
Proof.
  intros Hl Hall.
  assert (Hn : forallb no_other_slot ts = true).
  { apply forallb_forall. intros t Ht.
    apply every_slot_tick_no_other_slot.
    revert Ht. now apply forallb_forall. }
  destruct (polls_hold_latch latch ts [] Hl Hn) as [Hp Hf].
  rewrite !app_nil_r in Hp. split; [exact Hp|]. now rewrite Hp.
Qed.

(** X10: slot [k] is the window of seconds [120 k .. 120 k + 119] of the
    hour, and the slot index repeats every 3600 s. *)
Theorem slot_window (t k : Z) :
  0 <= t ->
  (islot_number t = k <-> 120 * k <= t mod 3600 < 120 * k + 120)
  /\ islot_number (t + 3600) = islot_number t.
Proof.
  intros Ht. rewrite !islot_number_floor by lia. split.
  - pose proof (Z.mod_pos_bound t 3600 ltac:(lia)) as Hb.
    pose proof (Z.div_mod (t mod 3600) 120 ltac:(lia)) as Hd.
    pose proof (Z.mod_pos_bound (t mod 3600) 120 ltac:(lia)) as Hr.
    split; intros H.
    + subst k. lia.
    + symmetry. apply Z.div_unique with (r := t mod 3600 - 120 * k); lia.
  - replace (t + 3600) with (t + 1 * 3600) by lia.
    now rewrite Z.mod_add by lia.
Qed.

(** X11: with a skip factor above 29 only slot 0 qualifies: a poll of a
    valid context with a fix and an eligible reference triggers exactly
    when the latch is clear and the extrapolated time is in the first 120
    seconds of the hour. *)
Theorem hourly_schedule (m : Machine) (a : nat) (c : WSPRbeaconContext)
        (tx : TxChannelContext) (verbose : Z) :
  heap m !! a = Some c -> _pTX c = Some tx ->
  fix_received tx -> reference_eligible m c tx ->
  29 < _u8_tx_slot_skip (_txSched c) ->
  triggered (WSPRbeaconTxScheduler (Some a) verbose m) = true
  <-> itx_trigger m = 0 /\ unixtime_of m tx mod 3600 < 120.
Proof.
  intros Hc Htx Hfix Hel Hskip.
  rewrite (scheduler_run m a c tx verbose Hc Htx).
  rewrite poll_cases_triggered, sight_SlotQualifying, eligible_of_iff.
  pose proof (slot_of_range m tx) as Hr.
  pose proof (u32_unixtime_now_range (time_data_of tx) (age_of m tx)) as Hu.
  fold (unixtime_of m tx) in Hu.
  assert (Hz : slot_of m tx mod _u8_tx_slot_skip (_txSched c) = 0
               <-> unixtime_of m tx mod 3600 < 120).
  { rewrite Z.mod_small by lia.
    unfold slot_of. rewrite islot_number_floor by lia.
    pose proof (Z.mod_pos_bound (unixtime_of m tx) 3600 ltac:(lia)) as Hb.
    split; intros H.
    - destruct (Z_lt_le_dec (unixtime_of m tx mod 3600) 120) as [Hlt|Hge];
        [exact Hlt|].
      assert (1 <= unixtime_of m tx mod 3600 / 120)
        by (apply Z.div_le_lower_bound; lia).
      lia.
    - apply Z.div_small. lia. }
  unfold fix_received in Hfix. rewrite Hz. intuition lia.
Qed.

(** X12: with the solution not active and the override enabled, and the
    timer at or after the stamp of the last fix, the reference is eligible
    exactly during the 7,200,000,000 microseconds that follow the stamp.
    When the timer value precedes the stamp (the fix was stamped after the
    timer was read, by less than 2^64 - 7,200,000,000 microseconds) the
    64-bit difference wraps and the reference is not eligible. *)
Theorem holdover_window (m : Machine) (c : WSPRbeaconContext)
        (tx : TxChannelContext) :
  _u8_is_solution_active (time_data_of tx) = 0 ->
  _u8_tx_GPS_past_time (_txSched c) = YES ->
  0 <= uptime64 m < 2 ^ 64 ->
  0 <= _u64_sysclk_nmea_last (time_data_of tx) < 2 ^ 64 ->
  (_u64_sysclk_nmea_last (time_data_of tx) <= uptime64 m ->
   (eligible_of m c tx = true
    <-> uptime64 m - _u64_sysclk_nmea_last (time_data_of tx) < 7200000000))
  /\ (uptime64 m < _u64_sysclk_nmea_last (time_data_of tx)
                  <= uptime64 m + (2 ^ 64 - 7200000000) ->
      eligible_of m c tx = false).
Proof.
  intros Hact Hovr Hup Hlast.
  assert (Hel : eligible_of m c tx = true <-> age_of m tx < 7200).
  { rewrite eligible_of_iff. unfold reference_eligible. intuition congruence. }
  unfold age_of, u64_GPS_last_age_sec, CInt.div, CInt.to_uint64, CInt.wrap in Hel.
  set (d := uptime64 m - _u64_sysclk_nmea_last (time_data_of tx)) in *.
  pose proof (Z.mod_pos_bound d (2 ^ 64) ltac:(lia)) as Hm.
  rewrite Z.quot_div_nonneg in Hel by lia.
  split; intros Hord.
  - rewrite Hel. rewrite Z.mod_small by lia.
    split; intros H.
    + destruct (Z_lt_le_dec d 7200000000) as [Hd|Hd]; [exact Hd|].
      assert (7200 <= d / 1000000) by (apply Z.div_le_lower_bound; lia). lia.
    + apply Z.div_lt_upper_bound; lia.
  - destruct (eligible_of m c tx); [|reflexivity].
    assert (Hlt : d mod 2 ^ 64 / 1000000 < 7200) by (apply Hel; reflexivity).
    assert (Hd : d mod 2 ^ 64 = d + 2 ^ 64).
    { symmetry. apply Z.mod_unique_pos with (q := -1); lia. }
    rewrite Hd in Hlt.
    assert (7200 <= (d + 2 ^ 64) / 1000000); [|lia].
    apply Z.div_le_lower_bound; lia.
Qed.

End Schedules.

(** ** Initialisation *)

Section Initialisation.

Context {platform : Platform}.

Variables (sizeof_callsign sizeof_locator sizeof_outbuf : nat).
Variable heap_cells : nat.
Variable TxChannelInit : Z -> Z -> PioDco -> option TxChannelContext.

#[local] Arguments strncpy : simpl never.
#[local] Arguments CInt.wrap : simpl never.
#[local] Arguments CInt.to_uint32 : simpl never.
#[local] Arguments Nat.ltb : simpl never.

Lemma lookup_snoc (h : list WSPRbeaconContext) (x : WSPRbeaconContext) :
  (h ++ [x]) !! length h = Some x.
Proof. now apply list_lookup_middle. Qed.

Lemma insert_snoc (h : list WSPRbeaconContext) (x y : WSPRbeaconContext) :
  <[length h := y]> (h ++ [x]) = h ++ [y].
Proof.
  rewrite insert_app_r_alt by lia. now rewrite Nat.sub_diag.
Qed.

Lemma Init_run (m : Machine) (pcallsign pgridsquare : list Z)
      (txpow_dbm dial_freq_hz shift_freq_hz gpio : Z)
      (dco : PioDco) (tx : TxChannelContext) :
  (length (heap m) < heap_cells)%nat ->
  TxChannelInit 682667 0 dco = Some tx ->
  WSPRbeaconInit sizeof_callsign sizeof_locator sizeof_outbuf heap_cells
    TxChannelInit pcallsign pgridsquare txpow_dbm (Some dco)
    dial_freq_hz shift_freq_hz gpio m
  = mkRun (Returned (Some (length (heap m))))
      (with_heap
         (heap m ++ [initialised sizeof_callsign sizeof_locator sizeof_outbuf
                       pcallsign pgridsquare txpow_dbm dial_freq_hz
                       shift_freq_hz gpio tx])
         m)
      [].
Proof.
  intros Hroom Htx.
  apply Nat.ltb_lt in Hroom.
  unfold WSPRbeaconInit, bind, calloc_context, load, store; cbn.
  rewrite Hroom; cbn.
  repeat (rewrite ?lookup_snoc, ?insert_snoc; cbn).
  rewrite Htx; cbn.
  repeat (rewrite ?lookup_snoc, ?insert_snoc; cbn).
  reflexivity.
Qed.

#[local] Abbreviation Init :=
  (WSPRbeaconInit sizeof_callsign sizeof_locator sizeof_outbuf heap_cells
                  TxChannelInit).
#[local] Abbreviation fresh :=
  (initialised sizeof_callsign sizeof_locator sizeof_outbuf).

(** X13: when the allocator has room and [TxChannelInit] returns a
    channel, [WSPRbeaconInit] returns the address of a new context and
    leaves the latch and every existing context as they were. The new
    context has the channel that [TxChannelInit] returned with the dial
    frequency set to the 32-bit sum of dial and shift and the pin set; its
    power is the argument reduced to 8 bits; its output buffer and its
    schedule are zero, so the skip factor is 0 and the override flag is 0. *)
Theorem Init_builds_fresh_context (m : Machine) (pcallsign pgridsquare : list Z)
        (txpow_dbm dial_freq_hz shift_freq_hz gpio : Z)
        (dco : PioDco) (tx : TxChannelContext) :
  (length (heap m) < heap_cells)%nat ->
  TxChannelInit 682667 0 dco = Some tx ->
  let r := Init pcallsign pgridsquare txpow_dbm (Some dco)
                dial_freq_hz shift_freq_hz gpio m in
  outcome r = Returned (Some (length (heap m)))
  /\ calls r = []
  /\ itx_trigger (final r) = itx_trigger m
  /\ (forall b c, heap m !! b = Some c -> heap (final r) !! b = Some c)
  /\ exists c' tx',
      heap (final r) !! length (heap m) = Some c' /\ _pTX c' = Some tx'
      /\ _u32_dialfreqhz tx' = (dial_freq_hz + shift_freq_hz) mod 2 ^ 32
      /\ _i_tx_gpio tx' = gpio
      /\ _ix_input tx' = _ix_input tx
      /\ _pbyte_buffer tx' = _pbyte_buffer tx
      /\ _p_oscillator tx' = _p_oscillator tx
      /\ _u8_txpower c' = txpow_dbm mod 256
      /\ _pu8_outbuf c' = repeat 0 sizeof_outbuf
      /\ _u8_tx_slot_skip (_txSched c') = 0
      /\ _u8_tx_GPS_past_time (_txSched c') = 0.
Proof.
  intros Hroom Htx r. subst r.
  rewrite (Init_run m pcallsign pgridsquare txpow_dbm dial_freq_hz
             shift_freq_hz gpio dco tx Hroom Htx).
  cbn. repeat split.
  - intros b c Hb. now apply lookup_app_l_Some.
  - eexists _, _. rewrite lookup_snoc. cbn. repeat split.
Qed.

(** X14: [WSPRbeaconInit] aborts, with the machine as it was, when the
    oscillator pointer is NULL and when the allocator is full. *)
Theorem Init_aborts_unchanged (m : Machine) (pcallsign pgridsquare : list Z)
        (txpow_dbm dial_freq_hz shift_freq_hz gpio : Z) (pdco : option PioDco) :
  pdco = None \/ (heap_cells <= length (heap m))%nat ->
  Init pcallsign pgridsquare txpow_dbm pdco dial_freq_hz shift_freq_hz gpio m
  = mkRun Aborted m [].
Proof.
  intros [->|Hfull]; [reflexivity|].
  apply Nat.ltb_ge in Hfull.
  destruct pdco as [dco|]; [|reflexivity].
  unfold WSPRbeaconInit, bind, calloc_context; cbn.
  now rewrite Hfull.
Qed.

(** X15: a context fresh from [WSPRbeaconInit] has a skip factor of 0. A
    poll of it right after [WSPRbeaconInit] that finds a fix and an active
    solution reaches the remainder by the skip factor, which is undefined
    for a divisor of 0. Every poll of it whose behaviour is defined finds
    no fix or no eligible reference: it returns -1 or 0 and triggers
    nothing. *)
Theorem fresh_context_cannot_transmit (m : Machine) (pcallsign pgridsquare : list Z)
        (txpow_dbm dial_freq_hz shift_freq_hz gpio verbose : Z)
        (dco : PioDco) (tx : TxChannelContext) :
  (length (heap m) < heap_cells)%nat ->
  TxChannelInit 682667 0 dco = Some tx ->
  let r := (p <- Init pcallsign pgridsquare txpow_dbm (Some dco)
                      dial_freq_hz shift_freq_hz gpio ;;
            WSPRbeaconTxScheduler p verbose) m in
  (fix_received tx -> _u8_is_solution_active (time_data_of tx) <> 0 ->
   outcome r = Undefined)
  /\ (outcome r <> Undefined ->
      triggered r = false
      /\ (outcome r = Returned (-1) \/ outcome r = Returned 0)
      /\ (~ fix_received tx \/ _u8_is_solution_active (time_data_of tx) = 0)).
Proof.
  intros Hroom Htx r. subst r. unfold bind.
  rewrite (Init_run m pcallsign pgridsquare txpow_dbm dial_freq_hz
             shift_freq_hz gpio dco tx Hroom Htx).
  set (c := fresh pcallsign pgridsquare txpow_dbm dial_freq_hz
                  shift_freq_hz gpio tx).
  set (m1 := with_heap (heap m ++ [c]) m).
  set (tx1 := set_gpio gpio
                (set_dialfreq (CInt.to_uint32 (dial_freq_hz + shift_freq_hz)) tx)).
  assert (Hc : heap m1 !! length (heap m) = Some c) by apply lookup_snoc.
  rewrite (scheduler_run m1 (length (heap m)) c tx1 verbose Hc eq_refl).
  destruct (poll_cases m1 (length (heap m)) c tx1) as [o m2 cs] eqn:Ep.
  unfold poll_cases in Ep. unfold fix_received.
  change (time_data_of tx) with (time_data_of tx1).
  destruct (sight m1 c tx1) eqn:Es.
  - injection Ep as <- <- <-. cbn.
    apply sight_NoFix in Es. split; [intros Hfix; now destruct Hfix|].
    intros _. repeat split; auto.
  - injection Ep as <- <- <-. cbn.
    apply sight_Ineligible in Es. destruct Es as [_ Es].
    apply eligible_of_false in Es. unfold reference_eligible in Es.
    split; [intros _ Hact; destruct Es; now left|].
    intros _. repeat split; auto. right.
    destruct (Z.eq_dec (_u8_is_solution_active (time_data_of tx1)) 0); [assumption|].
    destruct Es. now left.
  - injection Ep as <- <- <-. cbn. split; [reflexivity|]. intros H. now destruct H.
  - apply sight_SlotQualifying in Es. destruct Es as (_ & _ & Hskip & _).
    now destruct Hskip.
  - apply sight_SlotOther in Es. destruct Es as (_ & _ & Hskip & _).
    now destruct Hskip.
Qed.

(** X16: the handoff right after [WSPRbeaconInit] is decided by the 32-bit
    sum of the dial frequency and the shift: it returns 0 when that sum is
    above 1,100,000 Hz and aborts otherwise, also when the sum of the two
    arguments as numbers is above it but leaves 32 bits. *)
Theorem Init_then_SendPacket (m : Machine) (pcallsign pgridsquare : list Z)
        (txpow_dbm dial_freq_hz shift_freq_hz gpio : Z)
        (dco : PioDco) (tx : TxChannelContext) :
  (length (heap m) < heap_cells)%nat ->
  TxChannelInit 682667 0 dco = Some tx ->
  let r := (p <- Init pcallsign pgridsquare txpow_dbm (Some dco)
                      dial_freq_hz shift_freq_hz gpio ;;
            WSPRbeaconSendPacket p) m in
  (1100000 < (dial_freq_hz + shift_freq_hz) mod 2 ^ 32 -> outcome r = Returned 0)
  /\ ((dial_freq_hz + shift_freq_hz) mod 2 ^ 32 <= 1100000 -> outcome r = Aborted).
Proof.
  intros Hroom Htx r. subst r. unfold bind.
  rewrite (Init_run m pcallsign pgridsquare txpow_dbm dial_freq_hz
             shift_freq_hz gpio dco tx Hroom Htx).
  erewrite (SendPacket_run _ (length (heap m))
              (fresh pcallsign pgridsquare txpow_dbm dial_freq_hz
                     shift_freq_hz gpio tx)
              (set_gpio gpio
                 (set_dialfreq (CInt.to_uint32 (dial_freq_hz + shift_freq_hz)) tx)));
    [|apply lookup_snoc|reflexivity].
  cbn [_u32_dialfreqhz set_gpio set_dialfreq].
  unfold CInt.to_uint32, CInt.wrap. change 1100000 with (1100 * kHz).
  destruct (Z.ltb_spec (1100 * kHz) ((dial_freq_hz + shift_freq_hz) mod 2 ^ 32));
    cbn; split; intros; auto; lia.
Qed.

Lemma c_string_nonzero (src : list Z) : Forall (fun x => x <> 0) (c_string src).
Proof.
  induction src as [|x src IH]; cbn; [constructor|].
  destruct (Z.eqb_spec x 0); constructor; assumption.
Qed.

Lemma c_string_terminated (s rest : list Z) :
  Forall (fun x => x <> 0) s -> c_string (s ++ 0 :: rest) = s.
Proof.
  induction 1 as [|x s Hx Hs IH]; cbn; [reflexivity|].
  destruct (Z.eqb_spec x 0); [contradiction|]. now rewrite IH.
Qed.

Lemma strncpy_zeroed_length (src : list Z) (n : nat) :
  length (strncpy (repeat 0 n) src n) = n.
Proof.
  unfold strncpy.
  rewrite !length_app, length_take, repeat_length, length_drop, repeat_length.
  lia.
Qed.

Lemma strncpy_fits (src : list Z) (n : nat) :
  (length (c_string src) < n)%nat ->
  c_string (strncpy (repeat 0 n) src n) = c_string src.
Proof.
  intros Hlt. unfold strncpy.
  rewrite take_ge by lia.
  destruct (n - length (c_string src))%nat as [|k] eqn:Ek; [lia|].
  cbn [repeat]. rewrite <- app_comm_cons.
  apply c_string_terminated, c_string_nonzero.
Qed.

Lemma strncpy_truncates (src : list Z) (n : nat) :
  (n <= length (c_string src))%nat ->
  strncpy (repeat 0 n) src n = take n (c_string src).
Proof.
  intros Hle. unfold strncpy.
  rewrite length_take.
  replace (n - n `min` length (c_string src))%nat with 0%nat by lia.
  rewrite drop_ge by (rewrite repeat_length; lia).
  cbn. now rewrite app_nil_r.
Qed.

(** X17: [WSPRbeaconInit] stores the callsign and the locator in arrays of
    fixed size. A string shorter than its array is stored whole and
    NUL-terminated: read back as a C string it is the string given. A
    string of at least the size of the array is cut to that size and
    stored without a terminating NUL: the array then holds no NUL at all. *)
Theorem Init_copies_identity (m : Machine) (pcallsign pgridsquare : list Z)
        (txpow_dbm dial_freq_hz shift_freq_hz gpio : Z)
        (dco : PioDco) (tx : TxChannelContext) :
  (length (heap m) < heap_cells)%nat ->
  TxChannelInit 682667 0 dco = Some tx ->
  let r := Init pcallsign pgridsquare txpow_dbm (Some dco)
                dial_freq_hz shift_freq_hz gpio m in
  exists c',
    heap (final r) !! length (heap m) = Some c'
    /\ length (_pu8_callsign c') = sizeof_callsign
    /\ length (_pu8_locator c') = sizeof_locator
    /\ ((length (c_string pcallsign) < sizeof_callsign)%nat ->
        c_string (_pu8_callsign c') = c_string pcallsign)
    /\ ((sizeof_callsign <= length (c_string pcallsign))%nat ->
        _pu8_callsign c' = take sizeof_callsign (c_string pcallsign)
        /\ Forall (fun x => x <> 0) (_pu8_callsign c'))
    /\ ((length (c_string pgridsquare) < sizeof_locator)%nat ->
        c_string (_pu8_locator c') = c_string pgridsquare)
    /\ ((sizeof_locator <= length (c_string pgridsquare))%nat ->
        _pu8_locator c' = take sizeof_locator (c_string pgridsquare)
        /\ Forall (fun x => x <> 0) (_pu8_locator c')).
Proof.
  intros Hroom Htx r. subst r.
  rewrite (Init_run m pcallsign pgridsquare txpow_dbm dial_freq_hz
             shift_freq_hz gpio dco tx Hroom Htx).
  eexists. cbn [final heap with_heap]. rewrite lookup_snoc.
  split; [reflexivity|]. cbn [initialised _pu8_callsign _pu8_locator].
  split; [apply strncpy_zeroed_length|].
  split; [apply strncpy_zeroed_length|].
  split; [apply strncpy_fits|].
  split.
  { intros Hle. rewrite (strncpy_truncates _ _ Hle).
    split; [reflexivity|]. apply Forall_take, c_string_nonzero. }
  split; [apply strncpy_fits|].
  intros Hle. rewrite (strncpy_truncates _ _ Hle).
  split; [reflexivity|]. apply Forall_take, c_string_nonzero.
Qed.

End Initialisation.

(** ** The scheduler on concrete inputs *)

#[local] Existing Instance pico.

(** Scenario A of the spec: before the first fix the poll returns -1 and
    calls neither the oscillator start nor the stop. *)
Example scenario_A :
  let r := WSPRbeaconTxScheduler (Some 0%nat) 1 m_cold in
  outcome r = Returned (-1) /\ actions (calls r) = [] /\ final r = m_cold.
Proof. vm_compute. repeat split; reflexivity. Qed.

(** Scenario B of the spec: the first poll in a qualifying slot makes the
    four keying calls, the second one makes none. *)
Example scenario_B :
  let r1 := WSPRbeaconTxScheduler (Some 0%nat) 1 m_fresh in
  let r2 := WSPRbeaconTxScheduler (Some 0%nat) 1 (final r1) in
  actions (calls r1)
  = [Call_wspr_encode [82; 50; 66; 68; 89] [75; 79; 56; 53] 10;
     Call_PioDCOStart; Call_sleep_ms 100; Call_memcpy 162]
  /\ outcome r1 = Returned 0
  /\ itx_trigger (final r1) = 1
  /\ option_map _ix_input (tx_of (final r1) 0) = Some 162
  /\ actions (calls r2) = []
  /\ outcome r2 = Returned 0.
Proof. vm_compute. repeat split; reflexivity. Qed.

(** Scenario C of the spec: in holdover an age of 7199 s is eligible, and
    an age of 7200 s is not. *)
Example scenario_C :
  age_of m_holdover_7199 (channel beacon_holdover) = 7199
  /\ triggered (WSPRbeaconTxScheduler (Some 0%nat) 1 m_holdover_7199) = true
  /\ age_of m_holdover_7200 (channel beacon_holdover) = 7200
  /\ triggered (WSPRbeaconTxScheduler (Some 0%nat) 1 m_holdover_7200) = false.
Proof. vm_compute. repeat split; reflexivity. Qed.

(** Scenario D of the spec: with a skip factor of 3, of the slots 0..5 the
    slots 0 and 3 qualify. *)
Example scenario_D :
  map (fun slot => ZERO =? CInt.rem slot 3) [0; 1; 2; 3; 4; 5]
  = [true; false; false; true; false; false].
Proof. reflexivity. Qed.

(** At a dial frequency of exactly 1,100,000 Hz the handoff aborts, and a
    poll that triggers aborts after the settle delay with the latch set. *)
Example handoff_at_the_floor :
  let r := WSPRbeaconTxScheduler (Some 0%nat) 1 m_low in
  WSPRbeaconSendPacket (Some 0%nat) m_low = mkRun Aborted m_low []
  /\ outcome r = Aborted
  /\ actions (calls r)
     = [Call_wspr_encode [82; 50; 66; 68; 89] [75; 79; 56; 53] 10;
        Call_PioDCOStart; Call_sleep_ms 100]
  /\ itx_trigger (final r) = 1.
Proof. vm_compute. repeat split; reflexivity. Qed.

(** With the solution lost and no override, the poll leaves a running
    oscillator running and the latch set. *)
Example lost_reference_keeps_oscillator :
  let r := WSPRbeaconTxScheduler (Some 0%nat) 1 m_lost_keyed in
  outcome r = Returned 0
  /\ itx_trigger (final r) = 1
  /\ option_map (fun tx => dco_running (_p_oscillator tx)) (tx_of (final r) 0)
     = Some true
  /\ actions (calls r) = [].
Proof. vm_compute. repeat split; reflexivity. Qed.

(** A NULL context fails the first assertion. *)
Example scheduler_null :
  WSPRbeaconTxScheduler None 1 m_fresh = mkRun Aborted m_fresh [].
Proof. reflexivity. Qed.

(** *** Where the statements of the spec fail *)

(** C1 as the spec states it, without the latch and the fix counter: in a
    qualifying slot with an eligible reference, a poll with the latch set
    triggers nothing; and with the override enabled and the timer below
    7200 s, a poll before the first fix triggers nothing. *)
Lemma trigger_needs_latch_and_fix :
  ~ (triggered (WSPRbeaconTxScheduler (Some 0%nat) 1 m_latched) = true
     <-> qualifying_slot m_latched beacon_40m (channel beacon_40m)
         /\ reference_eligible m_latched beacon_40m (channel beacon_40m))
  /\ ~ (triggered (WSPRbeaconTxScheduler (Some 0%nat) 1 m_cold) = true
        <-> qualifying_slot m_cold beacon_cold (channel beacon_cold)
            /\ reference_eligible m_cold beacon_cold (channel beacon_cold)).
Proof.
  split; intros [_ H].
  - assert (Hc : qualifying_slot m_latched beacon_40m (channel beacon_40m)
                 /\ reference_eligible m_latched beacon_40m (channel beacon_40m)).
    { split; [reflexivity|]. left. vm_compute. discriminate. }
    specialize (H Hc). vm_compute in H. discriminate.
  - assert (Hc : qualifying_slot m_cold beacon_cold (channel beacon_cold)
                 /\ reference_eligible m_cold beacon_cold (channel beacon_cold)).
    { split; [reflexivity|]. right. split; reflexivity. }
    specialize (H Hc). vm_compute in H. discriminate.
Qed.

(** C2 as the spec states it: with a fix received and the reference not
    eligible, the poll returns 0 and not -1. *)
Lemma lost_reference_returns_ok :
  ~ (outcome (WSPRbeaconTxScheduler (Some 0%nat) 1 m_lost) = Returned (-1)
     <-> ~ fix_received (channel beacon_lost)
         \/ ~ reference_eligible m_lost beacon_lost (channel beacon_lost)).
Proof.
  intros [_ H].
  assert (Hn : ~ reference_eligible m_lost beacon_lost (channel beacon_lost)).
  { intros [Ha|[Ho _]]; [apply Ha; reflexivity|discriminate Ho]. }
  specialize (H (or_intror Hn)). vm_compute in H. discriminate.
Qed.

(** C5 as the spec states it: above the frequency floor, a handoff from
    index 100 of an 8-bit index leaves the index at 6, which is neither
    100 plus the symbol count nor at least 100. *)
Lemma SendPacket_index_wraps :
  let r := WSPRbeaconSendPacket (Some 0%nat) m_ix100 in
  1100000 < _u32_dialfreqhz (channel beacon_ix100)
  /\ outcome r = Returned 0
  /\ option_map _ix_input (tx_of m_ix100 0) = Some 100
  /\ option_map _ix_input (tx_of (final r) 0) = Some 6
  /\ 6 <> 100 + WSPR_SYMBOL_COUNT
  /\ ~ 100 <= 6.
Proof. vm_compute. repeat split; (reflexivity || discriminate || auto). Qed.

(** C7 as the spec states it: for a fix at unix time 2^32 - 1 and an age of
    one second, the extrapolated time is 0 and not the sum; and when the
    timer was read one microsecond before the fix was stamped, the age is
    the wrapped 64-bit difference and the extrapolated time is not the sum
    either. Both polls are eligible. *)
Lemma unixtime_is_not_the_sum :
  (reference_eligible m_2106 beacon_2106 (channel beacon_2106)
   /\ age_of m_2106 (channel beacon_2106) = 1
   /\ unixtime_of m_2106 (channel beacon_2106) = 0
   /\ unixtime_of m_2106 (channel beacon_2106)
      <> _u32_utime_nmea_last (time_data_of (channel beacon_2106))
         + age_of m_2106 (channel beacon_2106))
  /\ (reference_eligible m_early beacon_40m (channel beacon_40m)
      /\ age_of m_early (channel beacon_40m) = 18446744073709
      /\ unixtime_of m_early (channel beacon_40m)
         <> _u32_utime_nmea_last (time_data_of (channel beacon_40m))
            + age_of m_early (channel beacon_40m)
      /\ unixtime_of m_early (channel beacon_40m)
         <> _u32_utime_nmea_last (time_data_of (channel beacon_40m))
            + (uptime64 m_early
               - _u64_sysclk_nmea_last (time_data_of (channel beacon_40m)))
              / 1000000).
Proof.
  split.
  - split; [left; vm_compute; discriminate|].
    vm_compute. repeat split; (reflexivity || discriminate).
  - split; [left; vm_compute; discriminate|].
    vm_compute. repeat split; (reflexivity || discriminate).
Qed.

(** C9 as the spec states it: of two beacons in one process, both in a
    qualifying slot, the second would trigger if polled first; polled after
    the first, whose poll does not touch the second context, it does not. *)
Lemma second_beacon_is_blocked :
  let r := WSPRbeaconTxScheduler (Some 0%nat) 1 m_two in
  triggered r = true
  /\ heap (final r) !! 1%nat = heap m_two !! 1%nat
  /\ itx_trigger m_two = 0
  /\ itx_trigger (final r) = 1
  /\ triggered (WSPRbeaconTxScheduler (Some 1%nat) 1 m_two) = true
  /\ triggered (WSPRbeaconTxScheduler (Some 1%nat) 1 (final r)) = false.
Proof. vm_compute. repeat split; reflexivity. Qed.

(** *** The theorems at concrete inputs *)

Lemma override_bound_is_strict_witness :
  let r := WSPRbeaconTxScheduler (Some 0%nat) 1 m_holdover_7200 in
  (eligible_of m_holdover_7200 beacon_holdover (channel beacon_holdover) = true
   <-> age_of m_holdover_7200 (channel beacon_holdover) < 7200)
  /\ (age_of m_holdover_7200 (channel beacon_holdover) = 7200 ->
      eligible_of m_holdover_7200 beacon_holdover (channel beacon_holdover) = false
      /\ triggered r = false /\ final r = m_holdover_7200
      /\ actions (calls r) = []).
Proof.
  apply (override_bound_is_strict m_holdover_7200 0 beacon_holdover
           (channel beacon_holdover) 1); reflexivity.
Defined.

Lemma ineligible_poll_is_inert_witness :
  let r := WSPRbeaconTxScheduler (Some 0%nat) 1 m_lost in
  outcome r = Returned 0
  /\ final r = m_lost
  /\ actions (calls r) = []
  /\ itx_trigger (final r) = itx_trigger m_lost
  /\ tx_of (final r) 0 = Some (channel beacon_lost).
Proof.
  apply (ineligible_poll_is_inert m_lost 0 beacon_lost (channel beacon_lost) 1);
    [reflexivity|reflexivity|vm_compute; discriminate|].
  intros [Ha|[Ho _]]; [apply Ha; reflexivity|discriminate Ho].
Defined.

Lemma unixtime_extrapolation_witness :
  let r := WSPRbeaconTxScheduler (Some 0%nat) 1 m_2106_third in
  age_of m_2106_third (channel beacon_2106_third) = 1
  /\ unixtime_of m_2106_third (channel beacon_2106_third) = 0
  /\ (itx_trigger (final r) <> 0
      <-> (((4294967295 + 1) mod 2 ^ 32 mod 3600) / 120) mod 3 = 0).
Proof.
  pose proof (unixtime_extrapolation m_2106_third 0 beacon_2106_third
                (channel beacon_2106_third) 1 eq_refl eq_refl) as H.
  cbv zeta in H.
  destruct (H ltac:(vm_compute; discriminate)
              ltac:(left; vm_compute; discriminate)
              ltac:(vm_compute; discriminate)) as (H1 & H2 & H3 & _).
  split; [exact H1|]. split; [exact H2|]. exact H3.
Defined.

Lemma poll_status_witness :
  let r := WSPRbeaconTxScheduler (Some 0%nat) 1 m_cold in
  (outcome r = Returned (-1) <-> ~ fix_received (channel beacon_cold))
  /\ (~ fix_received (channel beacon_cold)
      \/ ~ reference_eligible m_cold beacon_cold (channel beacon_cold) ->
      final r = m_cold /\ actions (calls r) = [])
  /\ (fix_received (channel beacon_cold) ->
      ~ reference_eligible m_cold beacon_cold (channel beacon_cold) ->
      outcome r = Returned 0)
  /\ (fix_received (channel beacon_cold) ->
      outcome r = Returned 0
      \/ (outcome r = Aborted /\ triggered r = true
          /\ _u32_dialfreqhz (channel beacon_cold) <= 1100000)
      \/ (outcome r = Undefined
          /\ reference_eligible m_cold beacon_cold (channel beacon_cold)
          /\ _u8_tx_slot_skip (_txSched beacon_cold) = 0)).
Proof.
  apply (poll_status m_cold 0 beacon_cold (channel beacon_cold) 1); reflexivity.
Defined.

Lemma trigger_iff_witness :
  let r := WSPRbeaconTxScheduler (Some 0%nat) 1 m_fresh in
  let due := fix_received (channel beacon_40m) /\ itx_trigger m_fresh = 0
             /\ qualifying_slot m_fresh beacon_40m (channel beacon_40m)
             /\ reference_eligible m_fresh beacon_40m (channel beacon_40m) in
  (triggered r = true <-> due)
  /\ (due -> 1100000 < _u32_dialfreqhz (channel beacon_40m) ->
      outcome r = Returned 0
      /\ itx_trigger (final r) = 1
      /\ actions (calls r)
         = [Call_wspr_encode (_pu8_callsign beacon_40m) (_pu8_locator beacon_40m)
              (_u8_txpower beacon_40m);
            Call_PioDCOStart; Call_sleep_ms 100; Call_memcpy WSPR_SYMBOL_COUNT])
  /\ (due -> _u32_dialfreqhz (channel beacon_40m) <= 1100000 ->
      outcome r = Aborted
      /\ itx_trigger (final r) = 1
      /\ actions (calls r)
         = [Call_wspr_encode (_pu8_callsign beacon_40m) (_pu8_locator beacon_40m)
              (_u8_txpower beacon_40m);
            Call_PioDCOStart; Call_sleep_ms 100])
  /\ (~ due -> actions (calls r) = [] \/ actions (calls r) = [Call_PioDCOStop]).
Proof.
  apply (trigger_iff m_fresh 0 beacon_40m (channel beacon_40m) 1);
    [reflexivity|reflexivity|vm_compute; discriminate].
Defined.

Lemma keying_order_witness :
  let r := WSPRbeaconTxScheduler (Some 0%nat) 1 m_fresh in
  (1100000 < _u32_dialfreqhz (channel beacon_40m)
   /\ outcome r = Returned 0
   /\ actions (calls r)
      = [Call_wspr_encode (_pu8_callsign beacon_40m) (_pu8_locator beacon_40m)
           (_u8_txpower beacon_40m);
         Call_PioDCOStart; Call_sleep_ms 100; Call_memcpy WSPR_SYMBOL_COUNT])
  \/ (_u32_dialfreqhz (channel beacon_40m) <= 1100000
      /\ outcome r = Aborted
      /\ actions (calls r)
         = [Call_wspr_encode (_pu8_callsign beacon_40m) (_pu8_locator beacon_40m)
              (_u8_txpower beacon_40m);
            Call_PioDCOStart; Call_sleep_ms 100]).
Proof.
  apply (keying_order m_fresh 0 beacon_40m (channel beacon_40m) 1); reflexivity.
Defined.

Lemma SendPacket_spec_witness :
  let r := WSPRbeaconSendPacket (Some 0%nat) m_fresh in
  (_u32_dialfreqhz (channel beacon_40m) <= 1100000 ->
   outcome r = Aborted /\ final r = m_fresh /\ calls r = [])
  /\ (1100000 < _u32_dialfreqhz (channel beacon_40m) ->
      outcome r = Returned 0
      /\ exists tx',
          tx_of (final r) 0 = Some tx'
          /\ _pbyte_buffer tx'
             = memcpy (_pbyte_buffer (channel beacon_40m)) (_pu8_outbuf beacon_40m)
                      WSPR_SYMBOL_COUNT
          /\ _ix_input tx'
             = (_ix_input (channel beacon_40m) + WSPR_SYMBOL_COUNT) mod ix_input_range
          /\ (0 <= _ix_input (channel beacon_40m) -> 0 <= WSPR_SYMBOL_COUNT ->
              _ix_input (channel beacon_40m) + WSPR_SYMBOL_COUNT < ix_input_range ->
              _ix_input tx' = _ix_input (channel beacon_40m) + WSPR_SYMBOL_COUNT
              /\ _ix_input (channel beacon_40m) <= _ix_input tx')).
Proof.
  apply (SendPacket_spec m_fresh 0 beacon_40m (channel beacon_40m)); reflexivity.
Defined.

Lemma latch_is_shared_witness :
  let r := WSPRbeaconTxScheduler (Some 0%nat) 1 m_two in
  let r' := WSPRbeaconTxScheduler (Some 1%nat) 1 (final r) in
  itx_trigger (final r) = 1
  /\ triggered r' = false
  /\ outcome r' <> Undefined
  /\ (itx_trigger (final r') = 1 \/ itx_trigger (final r') = 0).
Proof.
  pose proof (latch_is_shared m_two 0 beacon_40m (channel beacon_40m) 1
                eq_refl eq_refl) as H.
  cbv zeta in H.
  destruct (H ltac:(vm_compute; discriminate) ltac:(reflexivity)) as [H1 H2].
  split; [exact H1|].
  apply (H2 (final (WSPRbeaconTxScheduler (Some 0%nat) 1 m_two)) 1%nat
            beacon_20m (channel beacon_20m) 1);
    [reflexivity|reflexivity|reflexivity|vm_compute; discriminate].
Defined.

Lemma latch_one_shot_and_rearm_witness :
  exists r_gap r_next,
    polls 1 ([tick_at 35000000; tick_at 65000000]
             ++ [tick_at 125000000; tick_at 245000000])
    = map (poll 1) [tick_at 35000000; tick_at 65000000] ++ [r_gap; r_next]
    /\ Forall (fun r => triggered r = false /\ itx_trigger (final r) = 1)
              (map (poll 1) [tick_at 35000000; tick_at 65000000])
    /\ r_gap = poll 1 (tick_at 125000000)
    /\ triggered r_gap = false /\ itx_trigger (final r_gap) = 0
    /\ r_next = poll 0 (tick_at 245000000)
    /\ triggered r_next = true /\ itx_trigger (final r_next) = 1.
Proof.
  apply (latch_one_shot_and_rearm 1 [tick_at 35000000; tick_at 65000000]
           (tick_at 125000000) (tick_at 245000000));
    [lia|reflexivity|reflexivity|reflexivity].
Defined.

(** *** The other functions at concrete inputs *)

Lemma SetDialFreq_writes_frequency_only_witness :
  let r := WSPRbeaconSetDialFreq (Some 0%nat) 7040100 m_low in
  outcome r = Returned tt /\ calls r = []
  /\ itx_trigger (final r) = itx_trigger m_low
  /\ option_map _u32_dialfreqhz (tx_of (final r) 0) = Some 7040100.
Proof.
  pose proof (SetDialFreq_writes_frequency_only m_low 0 beacon_low
                (channel beacon_low) 7040100 eq_refl eq_refl) as H.
  cbv zeta in H. destruct H as (H1 & H2 & H3 & _).
  repeat split; try assumption; try reflexivity.
Defined.

Lemma SetDialFreq_decides_SendPacket_witness :
  let r := (WSPRbeaconSetDialFreq (Some 0%nat) 7040100 ;;
            WSPRbeaconSendPacket (Some 0%nat)) m_low in
  (1100000 < 7040100 -> outcome r = Returned 0)
  /\ (7040100 <= 1100000 -> outcome r = Aborted /\ calls r = []).
Proof.
  apply (SetDialFreq_decides_SendPacket m_low 0 beacon_low (channel beacon_low)
           7040100); reflexivity.
Defined.

Lemma functions_on_null_channel_witness :
  WSPRbeaconSendPacket (Some 0%nat) m_unbound = mkRun Aborted m_unbound []
  /\ outcome (WSPRbeaconCreatePacket (Some 0%nat) m_unbound) = Returned 0
  /\ outcome (WSPRbeaconSetDialFreq (Some 0%nat) 7040100 m_unbound) = Undefined
  /\ outcome (WSPRbeaconTxScheduler (Some 0%nat) 1 m_unbound) = Undefined.
Proof.
  apply (functions_on_null_channel m_unbound 0 beacon_unbound 7040100 1);
    reflexivity.
Defined.

Lemma triggering_poll_delivers_packet_witness :
  let r := WSPRbeaconTxScheduler (Some 0%nat) 1 m_fresh in
  outcome r = Returned 0 /\ itx_trigger (final r) = 1.
Proof.
  pose proof (triggering_poll_delivers_packet m_fresh 0 beacon_40m
                (channel beacon_40m) 1 eq_refl eq_refl) as H.
  cbv zeta in H.
  destruct (H ltac:(reflexivity) ltac:(reflexivity) ltac:(vm_compute; lia))
    as (H1 & H2 & _).
  split; assumption.
Defined.

Lemma aborted_trigger_leaves_oscillator_running_witness :
  let r := WSPRbeaconTxScheduler (Some 0%nat) 1 m_low in
  outcome r = Aborted /\ itx_trigger (final r) = 1.
Proof.
  pose proof (aborted_trigger_leaves_oscillator_running m_low 0 beacon_low
                (channel beacon_low) 1 eq_refl eq_refl) as H.
  cbv zeta in H.
  destruct (H ltac:(reflexivity) ltac:(vm_compute; discriminate))
    as (H1 & H2 & _).
  split; assumption.
Defined.

Lemma idle_slot_poll_stops_oscillator_witness :
  let r := WSPRbeaconTxScheduler (Some 0%nat) 1 m_idle in
  outcome r = Returned 0
  /\ actions (calls r) = [Call_PioDCOStop]
  /\ itx_trigger (final r) = 0.
Proof.
  pose proof (idle_slot_poll_stops_oscillator m_idle 0 beacon_alternate
                (channel beacon_alternate) 1 eq_refl eq_refl) as H.
  cbv zeta in H.
  destruct (H ltac:(vm_compute; discriminate)
               ltac:(left; vm_compute; discriminate)
               ltac:(vm_compute; discriminate)
               ltac:(vm_compute; discriminate))
    as (H1 & H2 & H3 & _).
  repeat split; assumption.
Defined.

Lemma poll_keeps_configuration_witness :
  let r := WSPRbeaconTxScheduler (Some 0%nat) 1 m_fresh in
  outcome r <> Undefined
  /\ exists c' tx',
      heap (final r) !! 0%nat = Some c' /\ _pTX c' = Some tx'
      /\ _pu8_callsign c' = _pu8_callsign beacon_40m
      /\ _pu8_locator c' = _pu8_locator beacon_40m
      /\ _u8_txpower c' = _u8_txpower beacon_40m
      /\ _txSched c' = _txSched beacon_40m
      /\ _u32_dialfreqhz tx' = _u32_dialfreqhz (channel beacon_40m)
      /\ _i_tx_gpio tx' = _i_tx_gpio (channel beacon_40m)
      /\ time_data_of tx' = time_data_of (channel beacon_40m).
Proof.
  apply (poll_keeps_configuration m_fresh 0 beacon_40m (channel beacon_40m) 1);
    [reflexivity|reflexivity|vm_compute; discriminate].
Defined.

Lemma send_packets_index_witness :
  let r := send_packets 3 (Some 0%nat) m_ix100 in
  outcome r = Returned 0
  /\ calls r = repeat (Call_memcpy WSPR_SYMBOL_COUNT) 3
  /\ itx_trigger (final r) = itx_trigger m_ix100
  /\ exists c' tx',
      heap (final r) !! 0%nat = Some c' /\ _pTX c' = Some tx'
      /\ _ix_input tx'
         = (_ix_input (channel beacon_ix100) + Z.of_nat 3 * WSPR_SYMBOL_COUNT)
           mod ix_input_range
      /\ _u32_dialfreqhz tx' = _u32_dialfreqhz (channel beacon_ix100)
      /\ _p_oscillator tx' = _p_oscillator (channel beacon_ix100).
Proof.
  apply (send_packets_index 3 m_ix100 0 beacon_ix100 (channel beacon_ix100));
    [reflexivity|reflexivity|reflexivity|vm_compute; split; [discriminate|reflexivity]].
Defined.

Lemma every_slot_schedule_never_rearms_witness :
  polls 1 [tick_every_slot 65000000; tick_every_slot 125000000;
           tick_every_slot 3605000000]
  = map (poll 1) [tick_every_slot 65000000; tick_every_slot 125000000;
                  tick_every_slot 3605000000]
  /\ Forall (fun r => triggered r = false /\ itx_trigger (final r) = 1)
            (polls 1 [tick_every_slot 65000000; tick_every_slot 125000000;
                      tick_every_slot 3605000000]).
Proof.
  apply (every_slot_schedule_never_rearms 1
           [tick_every_slot 65000000; tick_every_slot 125000000;
            tick_every_slot 3605000000]); [lia|reflexivity].
Defined.

Lemma slot_window_witness :
  (islot_number 1699999999 = 6
   <-> 120 * 6 <= 1699999999 mod 3600 < 120 * 6 + 120)
  /\ islot_number (1699999999 + 3600) = islot_number 1699999999.
Proof. apply (slot_window 1699999999 6). lia. Defined.

Lemma hourly_schedule_witness :
  triggered (WSPRbeaconTxScheduler (Some 0%nat) 1 m_hourly) = true
  <-> itx_trigger m_hourly = 0
      /\ unixtime_of m_hourly (channel beacon_hourly) mod 3600 < 120.
Proof.
  apply (hourly_schedule m_hourly 0 beacon_hourly (channel beacon_hourly) 1);
    [reflexivity|reflexivity|vm_compute; discriminate
    |left; vm_compute; discriminate|reflexivity].
Defined.

Lemma holdover_window_witness :
  (_u64_sysclk_nmea_last (time_data_of (channel beacon_holdover))
   <= uptime64 m_holdover_7199 ->
   (eligible_of m_holdover_7199 beacon_holdover (channel beacon_holdover) = true
    <-> uptime64 m_holdover_7199
        - _u64_sysclk_nmea_last (time_data_of (channel beacon_holdover))
        < 7200000000))
  /\ (uptime64 m_holdover_7199
      < _u64_sysclk_nmea_last (time_data_of (channel beacon_holdover))
      <= uptime64 m_holdover_7199 + (2 ^ 64 - 7200000000) ->
      eligible_of m_holdover_7199 beacon_holdover (channel beacon_holdover) = false).
Proof.
  apply (holdover_window m_holdover_7199 beacon_holdover (channel beacon_holdover));
    [reflexivity|reflexivity
    |vm_compute; split; [discriminate|reflexivity]
    |vm_compute; split; [discriminate|reflexivity]].
Defined.

Lemma Init_builds_fresh_context_witness :
  let r := WSPRbeaconInit 12 7 256 4 idle_channel callsign_R2BDY locator_KO85 10
             (Some dco_40m) 7040000 100 6 m_empty in
  outcome r = Returned (Some 0%nat)
  /\ calls r = []
  /\ itx_trigger (final r) = itx_trigger m_empty
  /\ option_map _u32_dialfreqhz (tx_of (final r) 0) = Some 7040100.
Proof.
  pose proof (Init_builds_fresh_context 12 7 256 4 idle_channel m_empty
                callsign_R2BDY locator_KO85 10 7040000 100 6 dco_40m) as H.
  destruct (H (idle_on dco_40m) ltac:(vm_compute; lia) ltac:(reflexivity))
    as (H1 & H2 & H3 & _).
  repeat split; try assumption; try reflexivity.
Defined.

Lemma Init_aborts_unchanged_witness :
  WSPRbeaconInit 12 7 256 1 idle_channel callsign_R2BDY locator_KO85 10
    (Some dco_40m) 7040000 100 6 m_fresh
  = mkRun Aborted m_fresh [].
Proof.
  apply (Init_aborts_unchanged 12 7 256 1 idle_channel m_fresh).
  right. vm_compute. lia.
Defined.

Lemma fresh_context_cannot_transmit_witness :
  outcome ((p <- WSPRbeaconInit 12 7 256 4 idle_channel callsign_R2BDY
                   locator_KO85 10 (Some dco_40m) 7040000 100 6 ;;
            WSPRbeaconTxScheduler p 1) m_empty)
  = Undefined.
Proof.
  pose proof (fresh_context_cannot_transmit 12 7 256 4 idle_channel m_empty
                callsign_R2BDY locator_KO85 10 7040000 100 6 1 dco_40m) as H.
  destruct (H (idle_on dco_40m) ltac:(vm_compute; lia) ltac:(reflexivity))
    as (H1 & _).
  apply H1; vm_compute; discriminate.
Defined.

Lemma Init_then_SendPacket_witness :
  let r := (p <- WSPRbeaconInit 12 7 256 4 idle_channel callsign_R2BDY
                   locator_KO85 10 (Some dco_40m) 4294967295 1100002 6 ;;
            WSPRbeaconSendPacket p) m_empty in
  (1100000 < (4294967295 + 1100002) mod 2 ^ 32 -> outcome r = Returned 0)
  /\ ((4294967295 + 1100002) mod 2 ^ 32 <= 1100000 -> outcome r = Aborted).
Proof.
  eapply (Init_then_SendPacket 12 7 256 4 idle_channel m_empty callsign_R2BDY
            locator_KO85 10 4294967295 1100002 6 dco_40m);
    [vm_compute; lia|reflexivity].
Defined.

Lemma Init_copies_identity_witness :
  let r := WSPRbeaconInit 12 7 256 4 idle_channel callsign_long locator_KO85 10
             (Some dco_40m) 7040000 100 6 m_empty in
  exists c',
    heap (final r) !! 0%nat = Some c'
    /\ length (_pu8_callsign c') = 12%nat
    /\ length (_pu8_locator c') = 7%nat.
Proof.
  pose proof (Init_copies_identity 12 7 256 4 idle_channel m_empty
                callsign_long locator_KO85 10 7040000 100 6 dco_40m) as H.
  destruct (H (idle_on dco_40m)
              ltac:(vm_compute; lia) ltac:(reflexivity))
    as (c' & H1 & H2 & H3 & _).
  exists c'. repeat split; assumption.
Defined.

Lemma CreatePacket_writes_outbuf_only_witness :
  let r := WSPRbeaconCreatePacket (Some 0%nat) m_fresh in
  outcome r = Returned 0
  /\ calls r = [Call_wspr_encode (_pu8_callsign beacon_40m)
                  (_pu8_locator beacon_40m) (_u8_txpower beacon_40m)]
  /\ itx_trigger (final r) = itx_trigger m_fresh.
Proof.
  pose proof (CreatePacket_writes_outbuf_only m_fresh 0 beacon_40m eq_refl) as H.
  cbv zeta in H. destruct H as (H1 & H2 & H3 & _).
  repeat split; assumption.
Defined.

Lemma SendPacket_copies_to_buffer_start_witness :
  let r := WSPRbeaconSendPacket (Some 0%nat) m_ix100 in
  calls r = [Call_memcpy WSPR_SYMBOL_COUNT]
  /\ itx_trigger (final r) = itx_trigger m_ix100.
Proof.
  pose proof (SendPacket_copies_to_buffer_start m_ix100 0 beacon_ix100
                (channel beacon_ix100) eq_refl eq_refl) as H.
  cbv zeta in H.
  destruct (H ltac:(reflexivity) ltac:(vm_compute; lia) ltac:(vm_compute; lia))
    as (H1 & H2 & _).
  split; assumption.
Defined.

(** A context initialised on an oscillator without a fix: the poll right
    after returns -1 and triggers nothing. *)
Example fresh_context_without_fix :
  let r := (p <- WSPRbeaconInit 12 7 256 4 idle_channel callsign_R2BDY
                   locator_KO85 10 (Some (_p_oscillator (channel beacon_cold)))
                   7040000 100 6 ;;
            WSPRbeaconTxScheduler p 1) m_empty in
  outcome r = Returned (-1) /\ triggered r = false.
Proof. vm_compute. split; reflexivity. Qed.

(** A callsign of fourteen characters in an array of twelve: the array
    holds its first twelve characters and no NUL; a callsign of five is
    stored whole. *)
Example callsign_truncated :
  strncpy (repeat 0 12) callsign_long 12
  = [82; 50; 66; 68; 89; 47; 80; 79; 82; 84; 65; 66]
  /\ strncpy (repeat 0 12) callsign_R2BDY 12
     = [82; 50; 66; 68; 89; 0; 0; 0; 0; 0; 0; 0].
Proof. split; reflexivity. Qed.

(** A dial frequency and a shift whose sum leaves 32 bits: the channel is
    set to 1,100,001 Hz. *)
Example Init_frequency_wraps :
  option_map _u32_dialfreqhz
    (tx_of (final (WSPRbeaconInit 12 7 256 4 idle_channel callsign_R2BDY
                     locator_KO85 10 (Some dco_40m) 4294967295 1100002 6 m_empty))
           0)
  = Some 1100001.
Proof. reflexivity. Qed.
